(** * agentD backend: route handlers and the progress-step parser

    A shallow embedding of [src/agentD/app.py] (the Zapier MCP
    configuration routes, the agent-task routes and the periodic metrics
    logger) and of [src/agentD/agentd_backend/progress_gemini.py] (the
    numbered-list parser of [generate_progress_steps]), followed by the
    properties of the specification that concern them.

    Conventions.
    - A Python [dict] with string keys is a [gmap string _]; a JSON value is
      the inductive [Py.value].
    - A handler that touches the file system or the database takes the
      store as an argument and returns the new store next to its response.
      [Tasks] has the handlers on the table alone; [Process] adds the
      write lock that a connection left open by a failed INSERT keeps.
    - A Python exception that leaves a handler is the response
      [Py.Uncaught e]; [raise HTTPException(...)] is [Py.HTTPException]. *)

From Stdlib Require Import ZArith String Ascii List Lia Bool.
From Stdlib Require Import Floats.SpecFloat.
From Stdlib Require Import DecimalString DecimalZ DecimalPos DecimalFacts.
From Stdlib Require Import Sorting.Permutation Sorting.Sorted.
From stdpp Require Import gmap strings list fin_maps.
From ITree Require Import ITree.
From Paco Require Import paco.

Local Open Scope string_scope.

(* ===================================================================== *)
(** * Part I. The embedding                                               *)
(* ===================================================================== *)

(** ** Python values, truthiness, exceptions *)

Module Py.

(** What [json.load] and FastAPI's body parser build: [None], [bool],
    [int] (unbounded), [float], [str], [list], [dict]. *)
#[warnings="-register-all"]
Inductive value : Type :=
| JNull
| JBool (b : bool)
| JInt (n : Z)
| JFloat (f : spec_float)
| JStr (s : string)
| JArr (l : list value)
| JObj (m : gmap string value).

(** [bool(v)], the test behind [not v]. *)
Definition truthy (v : value) : bool :=
  match v with
  | JNull => false
  | JBool b => b
  | JInt n => negb (n =? 0)%Z
  | JFloat (S754_zero _) => false
  | JFloat _ => true
  | JStr "" => false
  | JStr _ => true
  | JArr [] => false
  | JArr _ => true
  | JObj m => negb (bool_decide (m = ∅))
  end.

Inductive exn : Type :=
| KeyError (key : string)
| TypeError
| AttributeError
| IndexError
| JSONDecodeError
| OverflowError
| IntegrityError      (* sqlite3: PRIMARY KEY or NOT NULL violated *)
| ProgrammingError    (* sqlite3: parameter of an unsupported type
                         (InterfaceError before Python 3.11) *)
| OperationalError.   (* sqlite3: database is locked *)

(** A computation that may raise. *)
Definition raising (A : Type) : Type := exn + A.

Definition raise {A} (e : exn) : raising A := inl e.
Definition ret {A} (a : A) : raising A := inr a.
Definition bind {A B} (c : raising A) (k : A -> raising B) : raising B :=
  match c with
  | inl e => inl e
  | inr a => k a
  end.

(** [d.get(k, dflt)]: an attribute of [dict] only. *)
Definition get (d : value) (k : string) (dflt : value) : raising value :=
  match d with
  | JObj m => ret (default dflt (m !! k))
  | _ => raise AttributeError
  end.

(** [d[k]] with a string key. *)
Definition getitem (d : value) (k : string) : raising value :=
  match d with
  | JObj m =>
      match m !! k with
      | Some v => ret v
      | None => raise (KeyError k)
      end
  | _ => raise TypeError
  end.

(** [d[k] = v] with a string key; the result is [d] after the mutation. *)
Definition setitem (d : value) (k : string) (v : value) : raising value :=
  match d with
  | JObj m => ret (JObj (<[k := v]> m))
  | _ => raise TypeError
  end.

(** What a route handler hands back to FastAPI. *)
Inductive response : Type :=
| Ok (body : value)
| HTTPException (status_code : Z) (detail : string)
| Uncaught (e : exn).

End Py.

Notation "'do' x <- c1 ; c2" := (Py.bind c1 (fun x => c2))
  (at level 10, x name, c1 at level 100, c2 at level 200,
   format "'[v' 'do'  x  <-  c1 ; '/' c2 ']'").

(** ** 3. Zapier MCP configuration ([app.py], lines 135-157) *)

Module Zapier.
Import Py.

(** The file [browser_mcp.json] as [json.load] sees it: text that does
    not parse, or the document it parses to.  [json.dump] followed by
    [json.load] gives the document back. *)
Inductive file : Type :=
| Unparsable
| Document (doc : value).

(** [None] when [os.path.exists(path)] is false. *)
Definition store : Type := option file.

Definition required_prefix : string := "https://actions.zapier.com/mcp/".

Definition load (f : file) : raising value :=
  match f with
  | Unparsable => raise JSONDecodeError
  | Document doc => ret doc
  end.

(** [GET /api/zapier_mcp] *)
Definition get_zapier_mcp (st : store) : response :=
  match st with
  | Some f =>
      let r :=
        do config <- load f;
        do servers <- get config "mcpServers" (JObj ∅);
        do zapier <- get servers "zapier" (JObj ∅);
        get zapier "url" (JStr "") in
      match r with
      | inr url => Ok (JObj {[ "url" := url ]})
      | inl e => Uncaught e
      end
  | None => Ok (JObj {[ "url" := JStr "" ]})
  end.

(** The read-modify part of [update_zapier_mcp]: the document that is
    then dumped to the file.  [config["mcpServers"]["zapier"] = ...]
    mutates the inner dict that [config] holds, hence the write-back
    under ["mcpServers"]. *)
Definition updated_config (url : string) (st : store) : raising value :=
  do config <- match st with
               | Some f => load f
               | None => ret (JObj {[ "mcpServers" := JObj ∅ ]})
               end;
  do servers <- getitem config "mcpServers";
  do servers' <- setitem servers "zapier" (JObj {[ "url" := JStr url ]});
  setitem config "mcpServers" servers'.

(** [POST /api/zapier_mcp] *)
Definition update_zapier_mcp (payload : gmap string value) (st : store)
  : response * store :=
  match default (JStr "") (payload !! "url") with
  | JStr url =>
      if negb (String.prefix required_prefix url) then
        (HTTPException 400 "Invalid Zapier URL format", st)
      else
        match updated_config url st with
        | inl e => (Uncaught e, st)
        | inr config =>
            (Ok (JObj {[ "status" := JStr "success"; "url" := JStr url ]}),
             Some (Document config))
        end
  | _ => (Uncaught AttributeError, st)   (* no [startswith] on a non-str *)
  end.

(** The stores the specification describes: no file yet, or a document
    of the shape [{"mcpServers": {<name>: ...}, ...}]. *)
Definition well_formed (st : store) : bool :=
  match st with
  | None => true
  | Some (Document (JObj top)) =>
      match top !! "mcpServers" with
      | Some (JObj _) => true
      | _ => false
      end
  | Some _ => false
  end.

End Zapier.

(** ** 4. Agent tasks ([app.py], lines 49-58 and 159-182) *)

Module Tasks.
Import Py.

(** A value as the [sqlite3] module hands it to SQLite. *)
Inductive sqlval : Type :=
| SqlNull
| SqlInt (n : Z)
| SqlReal (f : spec_float)
| SqlText (s : string).

(** A row of [agent_tasks].  [created_at] holds the text of
    [CURRENT_TIMESTAMP], ['YYYY-MM-DD HH:MM:SS'], which SQLite compares
    byte by byte. *)
Record task_row : Type := {
  id : string;
  name : sqlval;
  description : sqlval;
  task : sqlval;
  created_at : string;
  last_result : sqlval
}.

(** The table, in rowid (insertion) order. *)
Definition table : Type := list task_row.

(** What a request takes from outside the handler: Python's clock, for
    the id; SQLite's clock, for the column default; and the text SQLite
    makes of a REAL that goes into a column declared TEXT (its own
    [%!.15g] printing), which is taken as given. *)
Record clock : Type := {
  utcnow_ms : Z;                       (* int(datetime.utcnow().timestamp() * 1000) *)
  current_timestamp : string;          (* CURRENT_TIMESTAMP *)
  real_text : spec_float -> string     (* the text of a REAL *)
}.

(** [str(n)] for an [int]. *)
Definition str_of_int (n : Z) : string := NilZero.string_of_int (Z.to_int n).

(** [f"task_{ms}"] *)
Definition task_id (ms : Z) : string := "task_" ++ str_of_int ms.

(** The number a task id was made from, when it has that form. *)
Definition task_stamp (i : string) : option Z :=
  match i with
  | String "t" (String "a" (String "s" (String "k" (String "_" digits)))) =>
      option_map Z.of_int (NilZero.int_of_string digits)
  | _ => None
  end.


(** How the [sqlite3] module binds a Python value to a [?].  SQLite
    takes a NaN for NULL. *)
Definition bind_param (v : value) : raising sqlval :=
  match v with
  | JNull => ret SqlNull
  | JBool b => ret (SqlInt (if b then 1 else 0))
  | JInt n =>
      if ((- 2 ^ 63 <=? n) && (n <? 2 ^ 63))%Z then ret (SqlInt n)
      else raise OverflowError
  | JFloat S754_nan => ret SqlNull
  | JFloat f => ret (SqlReal f)
  | JStr s => ret (SqlText s)
  | JArr _ | JObj _ => raise ProgrammingError
  end.

(** What a column declared TEXT keeps of a bound value: a number by its
    text, an integer in decimal and a REAL as SQLite prints it. *)
Definition text_affinity (print_real : spec_float -> string) (v : sqlval) : sqlval :=
  match v with
  | SqlInt n => SqlText (str_of_int n)
  | SqlReal f => SqlText (print_real f)
  | _ => v
  end.

Definition is_null (v : sqlval) : bool :=
  match v with
  | SqlNull => true
  | _ => false
  end.

Definition has_id (i : string) (db : table) : bool :=
  existsb (fun r => String.eqb (id r) i) db.

(** [INSERT INTO agent_tasks (id, name, description, task) VALUES (?, ?, ?, ?)]
    followed by [commit], on a database file that no other connection
    holds locked ([Process] below has the lock): the parameters are bound
    in order, [name] and [task] are NOT NULL, the primary key must be new;
    [created_at] takes its default and [last_result] is NULL. *)
Definition insert_task (now : clock) (i : string) (n d t : value) (db : table)
  : raising table :=
  do n' <- bind_param n;
  do d' <- bind_param d;
  do t' <- bind_param t;
  if is_null n' || is_null t' || has_id i db then raise IntegrityError
  else ret (db ++ [ {| id := i;
                       name := text_affinity (real_text now) n';
                       description := text_affinity (real_text now) d';
                       task := text_affinity (real_text now) t';
                       created_at := current_timestamp now;
                       last_result := SqlNull |} ])%list.

(** [POST /api/agent_tasks] *)
Definition create_agent_task (now : clock) (payload : gmap string value) (db : table)
  : response * table :=
  let name := default JNull (payload !! "name") in
  let task := default JNull (payload !! "task") in
  if negb (truthy name) || negb (truthy task) then
    (HTTPException 400 "Name and task are required", db)
  else
    let task_id := task_id (utcnow_ms now) in
    match insert_task now task_id name (default JNull (payload !! "description")) task db with
    | inl e => (Uncaught e, db)
    | inr db' => (Ok (JObj {[ "id" := JStr task_id; "status" := JStr "created" ]}), db')
    end.

(** [ORDER BY created_at DESC] as SQLite's sorter does it: rows come in
    scan order and rows with equal keys keep that order. *)
Fixpoint insert_row (r : task_row) (sorted : list task_row) : list task_row :=
  match sorted with
  | [] => [r]
  | x :: xs =>
      if String.ltb (created_at r) (created_at x) then x :: insert_row r xs
      else r :: x :: xs
  end.

Fixpoint order_by_created_at_desc (rows : list task_row) : list task_row :=
  match rows with
  | [] => []
  | r :: rs => insert_row r (order_by_created_at_desc rs)
  end.

(** What SQL itself promises of [ORDER BY created_at DESC]: the same
    rows, none after a row with a smaller key; ties in any order. *)
Definition newer_or_equal (a b : task_row) : Prop :=
  String.ltb (created_at a) (created_at b) = false.

Definition ordered_listing (db listing : list task_row) : Prop :=
  Permutation db listing /\ StronglySorted newer_or_equal listing.

Definition json_of_sqlval (v : sqlval) : value :=
  match v with
  | SqlNull => JNull
  | SqlInt n => JInt n
  | SqlReal f => JFloat f
  | SqlText s => JStr s
  end.

Definition task_json (r : task_row) : value :=
  JObj {[ "id" := JStr (id r);
          "name" := json_of_sqlval (name r);
          "description" := json_of_sqlval (description r);
          "task" := json_of_sqlval (task r);
          "created_at" := JStr (created_at r);
          "last_result" := json_of_sqlval (last_result r) ]}.

(** [GET /api/agent_tasks] *)
Definition get_agent_tasks (db : table) : response :=
  Ok (JObj {[ "tasks" := JArr (map task_json (order_by_created_at_desc db)) ]}).

(** The id a [POST] answered with, and the id of the task a [GET]
    lists first. *)
Definition created_id (r : response) : option string :=
  match r with
  | Ok (JObj body) =>
      match body !! "id", body !! "status" with
      | Some (JStr i), Some (JStr "created") => Some i
      | _, _ => None
      end
  | _ => None
  end.


(** The requests that reach the table, and a server run over them: a run
    in which no connection of an earlier request is still open when the
    next one comes ([Process.serve] has the other runs). *)
Inductive request : Type :=
| GetTasks
| CreateTask (now : clock) (payload : gmap string value).

Definition handle (rq : request) (db : table) : response * table :=
  match rq with
  | GetTasks => (get_agent_tasks db, db)
  | CreateTask now payload => create_agent_task now payload db
  end.

Fixpoint serve (rqs : list request) (db : table) : list response * table :=
  match rqs with
  | [] => ([], db)
  | rq :: rest =>
      let '(r, db1) := handle rq db in
      let '(rs, db2) := serve rest db1 in
      (r :: rs, db2)
  end.

End Tasks.

(** ** Progress-step generator ([progress_gemini.py]) *)

Module Progress.
Import Py.

(** A [str] here is a text over the code points U+0000 to U+00FF, one
    [ascii] each; the three character classes below are Python's on that
    range. *)

(** Line boundaries of [str.splitlines]: LF, VT, FF, CR, FS, GS, RS, NEL. *)
Definition is_line_break (c : ascii) : bool :=
  match N_of_ascii c with
  | 10 | 11 | 12 | 13 | 28 | 29 | 30 | 133 => true
  | _ => false
  end%N.

(** [str.isspace] on one character, what [strip()] removes. *)
Definition isspace (c : ascii) : bool :=
  match N_of_ascii c with
  | 9 | 10 | 11 | 12 | 13 | 28 | 29 | 30 | 31 | 32 | 133 | 160 => true
  | _ => false
  end%N.

(** [str.isdigit] on one character: 0-9 and the superscripts 2, 3, 1. *)
Definition isdigit (c : ascii) : bool :=
  match N_of_ascii c with
  | 48 | 49 | 50 | 51 | 52 | 53 | 54 | 55 | 56 | 57 | 178 | 179 | 185 => true
  | _ => false
  end%N.

Definition is_cr (c : ascii) : bool := (N_of_ascii c =? 13)%N.
Definition is_lf (c : ascii) : bool := (N_of_ascii c =? 10)%N.

(** [s.splitlines()]; [after_cr] is set right after a CR, so that the LF
    of a CR LF pair ends no second line. *)
Fixpoint splitlines_from (after_cr : bool) (s : string) : list string :=
  match s with
  | "" => []
  | String c rest =>
      if after_cr && is_lf c then splitlines_from false rest
      else if is_line_break c then "" :: splitlines_from (is_cr c) rest
      else match splitlines_from false rest with
           | [] => [String c ""]
           | l :: ls => String c l :: ls
           end
  end.

Definition splitlines (s : string) : list string := splitlines_from false s.

Fixpoint lstrip (s : string) : string :=
  match s with
  | "" => ""
  | String c rest => if isspace c then lstrip rest else s
  end.

Fixpoint rstrip (s : string) : string :=
  match s with
  | "" => ""
  | String c rest =>
      match rstrip rest with
      | "" => if isspace c then "" else String c ""
      | r => String c r
      end
  end.

(** [s.strip()] *)
Definition strip (s : string) : string := rstrip (lstrip s).

(** [s.split(".", 1)]: one or two pieces. *)
Fixpoint split_dot_once (s : string) : list string :=
  match s with
  | "" => [""]
  | String c rest =>
      if Ascii.eqb c "." then [""; rest]
      else match split_dot_once rest with
           | p :: ps => String c p :: ps
           | [] => [String c ""]
           end
  end.

(** [l[1]] *)
Definition item1 (l : list string) : raising string :=
  match l with
  | _ :: x :: _ => ret x
  | _ => raise IndexError
  end.

(** The body of the [for] loop, on one line, with [steps] as it stands. *)
Definition parse_line (steps : list string) (line : string) : raising (list string) :=
  let line := strip line in
  match line with
  | String c _ =>
      if isdigit c then
        do rest <- item1 (split_dot_once line);
        ret (steps ++ [strip rest])%list
      else ret steps
  | "" => ret steps
  end.

Fixpoint parse_lines (steps : list string) (lines : list string) : raising (list string) :=
  match lines with
  | [] => ret steps
  | line :: rest =>
      do steps' <- parse_line steps line;
      parse_lines steps' rest
  end.

(** Lines 29-36: from [response.text] to the returned list. *)
Definition parse_steps (text : string) : raising (list string) :=
  parse_lines [] (splitlines text).

(** *** The numbered-list format, in the specification's words

    A line of the list begins with a numeral, then ["."], then the text
    of the step; the step is that text without the marker.  The
    functions below read a line that way and are what the parser above
    is compared with. *)

Fixpoint skip_digits (s : string) : string :=
  match s with
  | "" => ""
  | String c rest => if isdigit c then skip_digits rest else s
  end.

Fixpoint all_digits (s : string) : bool :=
  match s with
  | "" => true
  | String c rest => isdigit c && all_digits rest
  end.

(** The stripped line begins with a numeral: the parser's own test. *)
Definition begins_with_numeral (line : string) : bool :=
  match strip line with
  | String c _ => isdigit c
  | "" => false
  end.

(** [Some text] when the line reads [N. text] with a text that is not
    blank. *)
Definition item_text (line : string) : option string :=
  if begins_with_numeral line then
    match skip_digits (strip line) with
    | String "." body =>
        match strip body with
        | "" => None
        | text => Some text
        end
    | _ => None
    end
  else None.

(** Every line that begins with a numeral is a line of the list. *)
Definition well_formed_lines (lines : list string) : bool :=
  forallb (fun line => negb (begins_with_numeral line) || bool_decide (is_Some (item_text line)))
          lines.

Definition well_formed_response (text : string) : bool :=
  well_formed_lines (splitlines text).

Definition numbered_lines (text : string) : list string :=
  List.filter begins_with_numeral (splitlines text).

(** The text has a ["."] somewhere. *)
Fixpoint has_dot (s : string) : bool :=
  match s with
  | "" => false
  | String c rest => Ascii.eqb c "." || has_dot rest
  end.

Definition str_of_int (n : Z) : string := NilZero.string_of_int (Z.to_int n).

Definition system_prompt (prompt : string) (max_steps : Z) : string :=
  "
You are generating UI progress updates for a web automation agent.

Task:
" ++ prompt ++ "

Rules:
- Generate " ++ str_of_int max_steps ++ " short progress steps
- Steps should look realistic for browser-based automation
- Do NOT include results
- Each step should be one short sentence
- Output as a numbered list only
".

(** [generate_progress_steps]; [generate_content] stands for the call
    to the model and maps the prompt sent to [response.text]. *)
Definition generate_progress_steps
    (generate_content : string -> string) (prompt : string) (max_steps : Z)
  : raising (list string) :=
  parse_steps (generate_content (system_prompt prompt max_steps)).

End Progress.

(** ** Background metrics logger ([app.py], lines 64-78) *)

Module Metrics.

(** What a call can raise.  [except Exception] matches the instances of
    [Exception]; [KeyboardInterrupt], [SystemExit] and the like derive
    from [BaseException] only and pass through it.  The string is
    [str(e)]. *)
Inductive raised : Type :=
| AnException (message : string)
| AnExit (message : string).

(** How the call [log_system_metrics()] ends. *)
Inductive outcome : Type :=
| Returned
| Raised (e : raised).

(** What the loop does to the outside. *)
Variant metricsE : Type -> Type :=
| LogSystemMetrics : metricsE outcome
| Print (line : string) : metricsE unit
| Sleep (seconds : Z) : metricsE unit.     (* await asyncio.sleep(seconds) *)

(** The body of [while True]: [inl tt] to go round again, [inr e] when
    [e] leaves the coroutine. *)
Definition iteration (interval_seconds : Z) : itree metricsE (unit + raised) :=
  ITree.bind (ITree.trigger LogSystemMetrics) (fun o =>
    match o with
    | Returned =>
        ITree.bind (ITree.trigger (Sleep interval_seconds)) (fun _ => Ret (inl tt))
    | Raised (AnException e) =>
        ITree.bind (ITree.trigger (Print ("[Periodic Logger] Error: " ++ e))) (fun _ =>
        ITree.bind (ITree.trigger (Sleep interval_seconds)) (fun _ => Ret (inl tt)))
    | Raised e => Ret (inr e)
    end).

Definition periodic_metrics_logger (interval_seconds : Z) : itree metricsE raised :=
  ITree.iter (fun _ : unit => iteration interval_seconds) tt.

(** [asyncio.create_task(periodic_metrics_logger(60))] in [lifespan]. *)
Definition background_task : itree metricsE raised := periodic_metrics_logger 60.

(** *** Running the loop against a script of outcomes *)

Inductive event : Type :=
| Called
| Printed (line : string)
| Slept (seconds : Z).

(** What is left when a run stops. *)
Inductive status : Type :=
| Ended (e : raised)     (* the coroutine ended, [e] propagating *)
| Waiting                (* at a call, the script used up *)
| OutOfFuel.

Definition answer {X} (e : metricsE X)
  : (X -> list outcome -> list event * status) ->
    list outcome -> list event * status :=
  match e in metricsE X
        return (X -> list outcome -> list event * status) ->
               list outcome -> list event * status with
  | LogSystemMetrics => fun k script =>
      match script with
      | [] => ([], Waiting)
      | o :: script' => let '(tr, st) := k o script' in (Called :: tr, st)
      end
  | Print line => fun k script =>
      let '(tr, st) := k tt script in (Printed line :: tr, st)
  | Sleep seconds => fun k script =>
      let '(tr, st) := k tt script in (Slept seconds :: tr, st)
  end.

Fixpoint run (fuel : nat) (t : itree metricsE raised) (script : list outcome)
  : list event * status :=
  match fuel with
  | O => ([], OutOfFuel)
  | S fuel' =>
      match observe t with
      | RetF e => ([], Ended e)
      | TauF t' => run fuel' t' script
      | VisF e k => answer e (fun x => run fuel' (k x)) script
      end
  end.

(** What one iteration shows when the call ends with [o]. *)
Definition iteration_events (interval_seconds : Z) (o : outcome) : list event :=
  match o with
  | Returned => [Called; Slept interval_seconds]
  | Raised (AnException e) =>
      [Called; Printed ("[Periodic Logger] Error: " ++ e); Slept interval_seconds]
  | Raised (AnExit _) => [Called]
  end.

Definition caughtb (o : outcome) : bool :=
  match o with
  | Returned | Raised (AnException _) => true
  | Raised (AnExit _) => false
  end.

(** *** The loop as a property of the tree

    [keeps_logging interval p t]: in phase [p], the tree [t] never
    returns as long as every call ends in a return or in an instance of
    [Exception]; after each call it reports the exception, if any, then
    sleeps [interval] seconds, then calls again, with finitely many
    silent steps in between. *)

Inductive phase : Type :=
| Logging
| Reporting (message : string)
| Sleeping.

Definition caught (o : outcome) : Prop :=
  match o with
  | Returned | Raised (AnException _) => True
  | Raised (AnExit _) => False
  end.

Definition phase_after (o : outcome) : phase :=
  match o with
  | Raised (AnException e) => Reporting e
  | _ => Sleeping
  end.

Inductive loopF (interval : Z) (r : phase -> itree metricsE raised -> Prop)
  : phase -> itree' metricsE raised -> Prop :=
| loop_tau p t :
    loopF interval r p (observe t) -> loopF interval r p (TauF t)
| loop_log k :
    (forall o, caught o -> r (phase_after o) (k o)) ->
    loopF interval r Logging (VisF LogSystemMetrics k)
| loop_print e k :
    (forall u, r Sleeping (k u)) ->
    loopF interval r (Reporting e) (VisF (Print ("[Periodic Logger] Error: " ++ e)) k)
| loop_sleep k :
    (forall u, r Logging (k u)) ->
    loopF interval r Sleeping (VisF (Sleep interval) k).

Definition loop_gen (interval : Z) (r : phase -> itree metricsE raised -> Prop)
    (p : phase) (t : itree metricsE raised) : Prop :=
  loopF interval r p (observe t).

Definition keeps_logging (interval : Z) : phase -> itree metricsE raised -> Prop :=
  paco2 (loop_gen interval) bot2.

End Metrics.

(** ** Concrete requests and stores used in the examples *)

Module Sample.
Import Py Tasks.

(** The body [{"name": "t1", "task": "scrape prices"}]. *)
Definition payload_t1 : gmap string value :=
  {[ "name" := JStr "t1"; "task" := JStr "scrape prices" ]}.

(** A printing of REALs for the instants below, right on the zeros and
    the infinities; no example binds another REAL. *)
Definition print_real (f : spec_float) : string :=
  match f with
  | S754_infinity false => "Inf"
  | S754_infinity true => "-Inf"
  | _ => "0.0"
  end.

(** Three instants of 2023-11-14 22:13:20 UTC, by their milliseconds. *)
Definition at_100 : clock :=
  {| utcnow_ms := 1700000000100; current_timestamp := "2023-11-14 22:13:20";
     real_text := print_real |}.
Definition at_500 : clock :=
  {| utcnow_ms := 1700000000500; current_timestamp := "2023-11-14 22:13:20";
     real_text := print_real |}.
Definition at_600 : clock :=
  {| utcnow_ms := 1700000000600; current_timestamp := "2023-11-14 22:13:20";
     real_text := print_real |}.

(** The row a [POST] of [{"name": "t0", "task": "older"}] at [at_100] left. *)
Definition older_row : task_row :=
  {| id := "task_1700000000100"; name := SqlText "t0"; description := SqlNull;
     task := SqlText "older"; created_at := "2023-11-14 22:13:20";
     last_result := SqlNull |}.

(** The row that [payload_t1] makes at the instant [now]. *)
Definition row_t1 (now : clock) : task_row :=
  {| id := task_id (utcnow_ms now); name := SqlText "t1"; description := SqlNull;
     task := SqlText "scrape prices"; created_at := current_timestamp now;
     last_result := SqlNull |}.

Definition lf : string := String (ascii_of_nat 10) "".
Definition cr : string := String (ascii_of_nat 13) "".

(** A reply with seven numbered steps. *)
Definition seven_steps : string :=
  "1. Open the browser" ++ lf ++ "2. Go to the site" ++ lf ++
  "3. Search for the item" ++ lf ++ "4. Open the first result" ++ lf ++
  "5. Read the price" ++ lf ++ "6. Add it to the cart" ++ lf ++
  "7. Close the browser" ++ lf.

(** A reply with an opening sentence and three numbered steps. *)
Definition three_steps : string :=
  "Here are the steps:" ++ lf ++ lf ++ " 1. Open the browser" ++ lf ++
  " 2. Search for the item  " ++ lf ++ "10.Read the price".

(** A reply that numbers its steps with a parenthesis. *)
Definition parenthesis_steps : string :=
  "1) Open the browser" ++ lf ++ "2) Read the price" ++ lf.

(** A model that replies [text] whatever it is sent. *)
Definition replies (text : string) : string -> string := fun _ => text.

End Sample.

(** ** [ORDER BY key DESC] on any table *)

Module Sql.

(** The sorter of [Tasks.order_by_created_at_desc], for any text key:
    rows come in scan order and rows with equal keys keep that order. *)
Fixpoint insert_desc {A} (key : A -> string) (r : A) (sorted : list A) : list A :=
  match sorted with
  | [] => [r]
  | x :: xs =>
      if String.ltb (key r) (key x) then x :: insert_desc key r xs
      else r :: x :: xs
  end.

Fixpoint order_by_desc {A} (key : A -> string) (rows : list A) : list A :=
  match rows with
  | [] => []
  | r :: rs => insert_desc key r (order_by_desc key rs)
  end.

(** [a] may come before [b]: its key is not the smaller. *)
Definition key_ge {A} (key : A -> string) (a b : A) : Prop :=
  String.ltb (key a) (key b) = false.

(** The rows whose key is [k], in the order the list has them. *)
Definition with_key {A} (key : A -> string) (k : string) (rows : list A) : list A :=
  List.filter (fun r => String.eqb (key r) k) rows.

End Sql.

(** ** 2. Chat sessions ([app.py], lines 32-39 and 126-133) *)

Module Sessions.
Import Py.

(** A row of [chat_sessions]: four TEXT columns, all NOT NULL. *)
Record session_row : Type := {
  id : string;
  title : string;
  created_at : string;
  updated_at : string
}.

Definition table : Type := list session_row.

Definition session_json (r : session_row) : value :=
  JObj {[ "id" := JStr (id r);
          "title" := JStr (title r);
          "created_at" := JStr (created_at r);
          "updated_at" := JStr (updated_at r) ]}.

(** [GET /api/chat_sessions] *)
Definition list_sessions (db : table) : response :=
  Ok (JObj {[ "sessions" :=
                JArr (map session_json (Sql.order_by_desc updated_at db)) ]}).

End Sessions.

(** ** Database initialisation ([app.py], lines 26-62) *)

Module Schema.
Import Py.

(** A row of [chat_messages]. *)
Record message_row : Type := {
  message_id : Z;
  session_id : string;
  role : string;
  content : string;
  timestamp : string
}.

(** The file [memory.sqlite]: each of the three tables is there, with its
    rows, or is not. *)
Record database : Type := {
  chat_sessions : option Sessions.table;
  chat_messages : option (list message_row);
  agent_tasks : option Tasks.table
}.

(** [CREATE TABLE IF NOT EXISTS] *)
Definition create_table_if_not_exists {A} (t : option (list A)) : option (list A) :=
  match t with
  | Some rows => Some rows
  | None => Some []
  end.

Definition init_db (d : database) : database :=
  {| chat_sessions := create_table_if_not_exists (chat_sessions d);
     chat_messages := create_table_if_not_exists (chat_messages d);
     agent_tasks := create_table_if_not_exists (agent_tasks d) |}.

(** What a handler gives on the whole database: [NoSuchTable] when
    SQLite finds no table to prepare the statement on
    ([sqlite3.OperationalError]). *)
Inductive answer : Type :=
| NoSuchTable
| Answer (r : response).

Definition list_sessions (d : database) : answer :=
  match chat_sessions d with
  | Some t => Answer (Sessions.list_sessions t)
  | None => NoSuchTable
  end.

Definition get_agent_tasks (d : database) : answer :=
  match agent_tasks d with
  | Some t => Answer (Tasks.get_agent_tasks t)
  | None => NoSuchTable
  end.

(** The check of the payload comes before the database is opened. *)
Definition create_agent_task (now : Tasks.clock) (payload : gmap string value) (d : database)
  : answer * database :=
  match agent_tasks d with
  | Some t =>
      let '(r, t') := Tasks.create_agent_task now payload t in
      (Answer r,
       {| chat_sessions := chat_sessions d;
          chat_messages := chat_messages d;
          agent_tasks := Some t' |})
  | None =>
      if negb (truthy (default JNull (payload !! "name")))
         || negb (truthy (default JNull (payload !! "task")))
      then (Answer (HTTPException 400 "Name and task are required"), d)
      else (NoSuchTable, d)
  end.

End Schema.

(** ** One server process on the database file ([app.py], lines 169-182)

    [create_agent_task] closes its connection after [commit] and nowhere
    else.  When [execute] raises, the connection stays open until Python
    reclaims it, and when the statement had taken the write lock by then
    (a constraint failed) the lock stays with the connection.  While it
    is held, another INSERT waits out its timeout and raises
    [OperationalError]; a SELECT reads as ever. *)

Module Process.
Import Py Tasks.

Record state : Type := {
  rows : table;
  locked : bool      (* a connection left open holds the write lock *)
}.

(** The parameters are bound before the statement runs. *)
Definition bind_params (n d t : value) : raising unit :=
  do n' <- bind_param n;
  do d' <- bind_param d;
  do t' <- bind_param t;
  ret tt.

(** [POST /api/agent_tasks] *)
Definition create_agent_task (now : clock) (payload : gmap string value) (st : state)
  : response * state :=
  let name := default JNull (payload !! "name") in
  let task := default JNull (payload !! "task") in
  if negb (truthy name) || negb (truthy task) then
    (HTTPException 400 "Name and task are required", st)
  else
    let task_id := task_id (utcnow_ms now) in
    let description := default JNull (payload !! "description") in
    match bind_params name description task with
    | inl e => (Uncaught e, st)
    | inr _ =>
        if locked st then (Uncaught OperationalError, st)
        else
          match insert_task now task_id name description task (rows st) with
          | inl e => (Uncaught e, {| rows := rows st; locked := true |})
          | inr db' =>
              (Ok (JObj {[ "id" := JStr task_id; "status" := JStr "created" ]}),
               {| rows := db'; locked := false |})
          end
    end.

(** [GET /api/agent_tasks] *)
Definition get_agent_tasks (st : state) : response := Tasks.get_agent_tasks (rows st).

Definition handle (rq : request) (st : state) : response * state :=
  match rq with
  | GetTasks => (get_agent_tasks st, st)
  | CreateTask now payload => create_agent_task now payload st
  end.

(** What happens in the process: a request is served, or Python reclaims
    the connections that failed requests left open. *)
Inductive event : Type :=
| Request (rq : request)
| Reclaim.

Fixpoint serve (evs : list event) (st : state) : list response * state :=
  match evs with
  | [] => ([], st)
  | Reclaim :: rest => serve rest {| rows := rows st; locked := false |}
  | Request rq :: rest =>
      let '(r, st1) := handle rq st in
      let '(rs, st2) := serve rest st1 in
      (r :: rs, st2)
  end.

(** The run in which every connection is reclaimed before the next
    request comes. *)
Definition reclaiming (rqs : list request) : list event :=
  flat_map (fun rq => [Request rq; Reclaim]) rqs.

(** The database with no connection open on it. *)
Definition at_rest (db : table) : state := {| rows := db; locked := false |}.

End Process.

(** ** Runs of requests on the configuration file *)

Module ZapierRun.

(** The store after the POSTs of [payloads], one after the other. *)
Fixpoint post_all (payloads : list (gmap string Py.value)) (st : Zapier.store)
  : Zapier.store :=
  match payloads with
  | [] => st
  | payload :: rest => post_all rest (snd (Zapier.update_zapier_mcp payload st))
  end.

(** What [get_zapier_mcp] reads at one level: the entry under [k], an
    empty dict when there is none. *)
Definition level (k : string) (m : gmap string Py.value) : Py.value :=
  default (Py.JObj ∅) (m !! k).

Definition is_object (v : Py.value) : bool :=
  match v with
  | Py.JObj _ => true
  | _ => false
  end.

End ZapierRun.

(** ** The parser of progress steps, line by line *)

Module ProgressLines.
Import Progress.

(** [line.split(".", 1)[1].strip()] on the stripped line, when there is a
    second piece. *)
Definition step_of (line : string) : string :=
  match split_dot_once (strip line) with
  | _ :: rest :: _ => strip rest
  | _ => ""
  end.

(** The lines the loop cannot take: a numeral first and no ["."]. *)
Definition breaks_parser (line : string) : bool :=
  begins_with_numeral line && negb (has_dot (strip line)).

End ProgressLines.

(** ** More concrete values for the examples *)

Module Fixtures.
Import Py.

Definition zapier_url : string := "https://actions.zapier.com/mcp/xyz".
Definition other_url : string := "https://actions.zapier.com/mcp/abc".

Definition post_of (url : string) : gmap string value := {[ "url" := JStr url ]}.

(** A configuration file with one other server in it. *)
Definition browser_config : Zapier.store :=
  Some (Zapier.Document
          (JObj {[ "mcpServers" :=
                     JObj {[ "browsermcp" := JObj {[ "command" := JStr "npx" ]} ]} ]})).

Definition session_a : Sessions.session_row :=
  {| Sessions.id := "a"; Sessions.title := "First";
     Sessions.created_at := "2023-11-14 22:13:20";
     Sessions.updated_at := "2023-11-14 22:15:00" |}.

Definition session_b : Sessions.session_row :=
  {| Sessions.id := "b"; Sessions.title := "Second";
     Sessions.created_at := "2023-11-14 22:14:00";
     Sessions.updated_at := "2023-11-14 22:16:30" |}.

(** A configuration file that holds [{}]. *)
Definition empty_config : Zapier.store := Some (Zapier.Document (JObj ∅)).

(** A task stored the second before the instants of [Sample], and the
    instant of the second after them. *)
Definition earlier_row : Tasks.task_row :=
  {| Tasks.id := "task_1699999999000"; Tasks.name := Tasks.SqlText "first";
     Tasks.description := Tasks.SqlText "the first task"; Tasks.task := Tasks.SqlText "earliest";
     Tasks.created_at := "2023-11-14 22:13:19"; Tasks.last_result := Tasks.SqlNull |}.

Definition at_next_second : Tasks.clock :=
  {| Tasks.utcnow_ms := 1700000001200; Tasks.current_timestamp := "2023-11-14 22:13:21";
     Tasks.real_text := Sample.print_real |}.

(** Bodies whose name is a NaN, and whose description is an infinity. *)
Definition payload_nan_name : gmap string value :=
  {[ "name" := JFloat S754_nan; "task" := JStr "x" ]}.

Definition payload_inf_description : gmap string value :=
  {[ "name" := JStr "t2"; "description" := JFloat (S754_infinity false);
     "task" := JStr "other" ]}.

Definition payload_t2 : gmap string value :=
  {[ "name" := JStr "t2"; "task" := JStr "other" ]}.

(** A database file that has the tasks table only. *)
Definition tasks_only : Schema.database :=
  {| Schema.chat_sessions := None; Schema.chat_messages := None;
     Schema.agent_tasks := Some [Sample.older_row] |}.

End Fixtures.

(* ===================================================================== *)
(** * Part II. Properties                                                 *)
(* ===================================================================== *)

(** ** Zapier MCP configuration *)

Section ZapierFacts.
Import Py Zapier.

Lemma updated_config_absent url :
  updated_config url None
  = inr (JObj {[ "mcpServers" := JObj {[ "zapier" := JObj {[ "url" := JStr url ]} ]} ]}).
Proof.
  unfold updated_config. cbn.
  rewrite lookup_singleton_eq. cbn.
  rewrite insert_singleton_eq. rewrite insert_empty. reflexivity.
Qed.

Lemma updated_config_document url top servers :
  top !! "mcpServers" = Some (JObj servers) ->
  updated_config url (Some (Document (JObj top)))
  = inr (JObj (<["mcpServers" := JObj (<["zapier" := JObj {[ "url" := JStr url ]}]> servers)]> top)).
Proof.
  intros Hs. unfold updated_config. cbn. rewrite Hs. reflexivity.
Qed.

(** Whatever [updated_config] returns has the servers object with the
    new ["zapier"] entry in it. *)
Lemma updated_config_inv url doc config :
  updated_config url (Some (Document doc)) = inr config ->
  exists top servers,
    doc = JObj top /\ top !! "mcpServers" = Some (JObj servers) /\
    config = JObj (<["mcpServers" := JObj (<["zapier" := JObj {[ "url" := JStr url ]}]> servers)]> top).
Proof.
  unfold updated_config. cbn.
  destruct doc as [| | | | | |top]; cbn; try discriminate.
  destruct (top !! "mcpServers") as [v|] eqn:Hs; cbn; try discriminate.
  destruct v as [| | | | | |servers]; cbn; try discriminate.
  intros [= <-]. exists top, servers. auto.
Qed.

Lemma update_accepts payload url st :
  payload !! "url" = Some (JStr url) ->
  String.prefix required_prefix url = true ->
  update_zapier_mcp payload st =
    match updated_config url st with
    | inl e => (Uncaught e, st)
    | inr config =>
        (Ok (JObj {[ "status" := JStr "success"; "url" := JStr url ]}),
         Some (Document config))
    end.
Proof.
  intros Hp Hpre. unfold update_zapier_mcp. rewrite Hp.
  cbn [default from_option id]. rewrite Hpre. reflexivity.
Qed.

(** A document written by the handler reads back the URL. *)
Lemma get_after_write url top servers :
  get_zapier_mcp
    (Some (Document (JObj (<["mcpServers" := JObj (<["zapier" := JObj {[ "url" := JStr url ]}]> servers)]> top))))
  = Ok (JObj {[ "url" := JStr url ]}).
Proof.
  unfold get_zapier_mcp. cbn.
  rewrite lookup_insert_eq. cbn.
  rewrite lookup_insert_eq. cbn.
  rewrite lookup_singleton_eq. reflexivity.
Qed.

(** The handler keeps the store well formed, and an absent file is. *)
Lemma update_keeps_well_formed payload st :
  well_formed st = true ->
  well_formed (snd (update_zapier_mcp payload st)) = true.
Proof.
  intros Hwf. unfold update_zapier_mcp.
  destruct (default (JStr "") (payload !! "url")); cbn; auto.
  destruct (negb _); cbn; auto.
  destruct st as [[|doc]|]; cbn in Hwf; try discriminate.
  - destruct doc as [| | | | | |top]; try discriminate.
    destruct (top !! "mcpServers") as [[| | | | | |servers]|] eqn:Hs; try discriminate.
    rewrite (updated_config_document _ _ _ Hs). cbn.
    rewrite lookup_insert_eq. reflexivity.
  - rewrite updated_config_absent. cbn.
    rewrite lookup_singleton_eq. reflexivity.
Qed.

(** Outside that shape the handler raises: here a document without the
    ["mcpServers"] key, which [get_zapier_mcp] reads as an empty URL. *)
Lemma update_without_servers_key payload url :
  payload !! "url" = Some (JStr url) ->
  String.prefix required_prefix url = true ->
  update_zapier_mcp payload (Some (Document (JObj ∅)))
  = (Uncaught (KeyError "mcpServers"), Some (Document (JObj ∅))).
Proof.
  intros Hp Hpre. rewrite (update_accepts _ _ _ Hp Hpre).
  unfold updated_config. cbn. rewrite lookup_empty. reflexivity.
Qed.

Lemma update_without_url payload st :
  payload !! "url" = None ->
  update_zapier_mcp payload st = (HTTPException 400 "Invalid Zapier URL format", st).
Proof.
  intros Hp. unfold update_zapier_mcp. rewrite Hp. reflexivity.
Qed.

End ZapierFacts.

(** C1, as the code has it.  For every URL that starts with the required
    prefix, and every store that has no configuration file or has a
    document whose ["mcpServers"] entry is an object, the POST handler
    answers [{"status": "success", "url": url}] and the GET handler, run
    on the store the POST left, answers [{"url": url}]. *)
Theorem set_then_get_returns_url
    (payload : gmap string Py.value) (url : string) (st : Zapier.store) :
  payload !! "url" = Some (Py.JStr url) ->
  String.prefix Zapier.required_prefix url = true ->
  Zapier.well_formed st = true ->
  exists st',
    Zapier.update_zapier_mcp payload st
    = (Py.Ok (Py.JObj {[ "status" := Py.JStr "success"; "url" := Py.JStr url ]}), st')
    /\ Zapier.get_zapier_mcp st' = Py.Ok (Py.JObj {[ "url" := Py.JStr url ]}).
Proof.
  intros Hp Hpre Hwf. rewrite (update_accepts _ _ _ Hp Hpre).
  destruct st as [[|doc]|]; cbn in Hwf; try discriminate.
  - destruct doc as [| | | | | |top]; try discriminate.
    destruct (top !! "mcpServers") as [[| | | | | |servers]|] eqn:Hs; try discriminate.
    rewrite (updated_config_document _ _ _ Hs).
    eexists. split; [reflexivity|]. apply get_after_write.
  - rewrite updated_config_absent. eexists. split; [reflexivity|].
    unfold Zapier.get_zapier_mcp. cbn.
    rewrite lookup_singleton_eq. cbn. rewrite lookup_singleton_eq. cbn.
    rewrite lookup_singleton_eq. reflexivity.
Qed.

Lemma set_then_get_returns_url_witness :
  exists st',
    Zapier.update_zapier_mcp {[ "url" := Py.JStr "https://actions.zapier.com/mcp/xyz" ]}
      Fixtures.browser_config
    = (Py.Ok (Py.JObj {[ "status" := Py.JStr "success";
                         "url" := Py.JStr "https://actions.zapier.com/mcp/xyz" ]}), st')
    /\ Zapier.get_zapier_mcp st'
       = Py.Ok (Py.JObj {[ "url" := Py.JStr "https://actions.zapier.com/mcp/xyz" ]}).
Proof.
  apply (set_then_get_returns_url
           {[ "url" := Py.JStr "https://actions.zapier.com/mcp/xyz" ]}
           "https://actions.zapier.com/mcp/xyz" Fixtures.browser_config); reflexivity.
Defined.

(** C1 as stated fails on a configuration file that holds [{}], a file
    the GET handler reads as the empty URL: the POST of a URL with the
    required prefix raises [KeyError] at [config["mcpServers"]] and writes
    nothing, and the GET that follows answers the empty URL, not the URL
    that was posted. *)
Lemma set_then_get_fails_without_servers_key :
  String.prefix Zapier.required_prefix Fixtures.zapier_url = true /\
  Zapier.get_zapier_mcp Fixtures.empty_config = Py.Ok (Py.JObj {[ "url" := Py.JStr "" ]}) /\
  Zapier.update_zapier_mcp (Fixtures.post_of Fixtures.zapier_url) Fixtures.empty_config
  = (Py.Uncaught (Py.KeyError "mcpServers"), Fixtures.empty_config) /\
  Zapier.get_zapier_mcp
    (snd (Zapier.update_zapier_mcp (Fixtures.post_of Fixtures.zapier_url) Fixtures.empty_config))
  = Py.Ok (Py.JObj {[ "url" := Py.JStr "" ]}) /\
  Zapier.get_zapier_mcp
    (snd (Zapier.update_zapier_mcp (Fixtures.post_of Fixtures.zapier_url) Fixtures.empty_config))
  <> Py.Ok (Py.JObj {[ "url" := Py.JStr Fixtures.zapier_url ]}).
Proof.
  assert (Hpost : Zapier.update_zapier_mcp (Fixtures.post_of Fixtures.zapier_url)
                    Fixtures.empty_config
                  = (Py.Uncaught (Py.KeyError "mcpServers"), Fixtures.empty_config))
    by (vm_compute; reflexivity).
  assert (Hget : Zapier.get_zapier_mcp Fixtures.empty_config
                 = Py.Ok (Py.JObj {[ "url" := Py.JStr "" ]}))
    by (vm_compute; reflexivity).
  split; [reflexivity|]. split; [exact Hget|]. split; [exact Hpost|].
  rewrite Hpost. cbn [snd]. rewrite Hget. split; [reflexivity|].
  intros H.
  apply (f_equal (fun r => match r with
                           | Py.Ok (Py.JObj body) => body !! "url"
                           | _ => None
                           end)) in H.
  rewrite !lookup_singleton_eq in H. discriminate H.
Qed.

(** C2. For every URL string that does not start with the required
    prefix, the POST handler raises [HTTPException(400)] and the store is
    the one it was given: the file is neither read nor written. *)
Theorem invalid_url_rejected
    (payload : gmap string Py.value) (url : string) (st : Zapier.store) :
  payload !! "url" = Some (Py.JStr url) ->
  String.prefix Zapier.required_prefix url = false ->
  Zapier.update_zapier_mcp payload st
  = (Py.HTTPException 400 "Invalid Zapier URL format", st).
Proof.
  intros Hp Hpre. unfold Zapier.update_zapier_mcp. rewrite Hp.
  cbn [default from_option id]. rewrite Hpre. reflexivity.
Qed.

Lemma invalid_url_rejected_witness :
  Zapier.update_zapier_mcp {[ "url" := Py.JStr "http://evil.com" ]}
    (Some (Zapier.Document (Py.JObj {[ "mcpServers" := Py.JObj ∅ ]})))
  = (Py.HTTPException 400 "Invalid Zapier URL format",
     Some (Zapier.Document (Py.JObj {[ "mcpServers" := Py.JObj ∅ ]}))).
Proof.
  apply (invalid_url_rejected {[ "url" := Py.JStr "http://evil.com" ]} "http://evil.com");
    reflexivity.
Defined.

(** C8. A POST that succeeds on an existing document leaves a document
    that differs from it in the ["zapier"] entry of ["mcpServers"] only:
    every other server entry and every other top-level key reads as
    before, and ["zapier"] is [{"url": url}]. *)
Theorem update_rewrites_only_zapier
    (payload : gmap string Py.value) (url : string)
    (doc body : Py.value) (st' : Zapier.store) :
  payload !! "url" = Some (Py.JStr url) ->
  String.prefix Zapier.required_prefix url = true ->
  Zapier.update_zapier_mcp payload (Some (Zapier.Document doc)) = (Py.Ok body, st') ->
  exists top servers top' servers',
    doc = Py.JObj top /\ top !! "mcpServers" = Some (Py.JObj servers) /\
    st' = Some (Zapier.Document (Py.JObj top')) /\
    top' !! "mcpServers" = Some (Py.JObj servers') /\
    servers' !! "zapier" = Some (Py.JObj {[ "url" := Py.JStr url ]}) /\
    (forall name, name ≠ "zapier" -> servers' !! name = servers !! name) /\
    (forall key, key ≠ "mcpServers" -> top' !! key = top !! key).
Proof.
  intros Hp Hpre H. rewrite (update_accepts _ _ _ Hp Hpre) in H.
  destruct (Zapier.updated_config url _) as [e|config] eqn:Hc; [discriminate|].
  injection H as _ <-.
  destruct (updated_config_inv _ _ _ Hc) as (top & servers & -> & Hs & ->).
  exists top, servers. eexists. eexists.
  split; [reflexivity|]. split; [exact Hs|]. split; [reflexivity|].
  split; [apply lookup_insert_eq|]. split; [apply lookup_insert_eq|].
  split; intros k Hk; apply lookup_insert_ne; congruence.
Qed.

Lemma update_rewrites_only_zapier_witness :
  exists top servers top' servers',
    Py.JObj {[ "mcpServers" :=
                 Py.JObj {[ "browsermcp" := Py.JObj {[ "command" := Py.JStr "npx" ]};
                            "zapier" := Py.JObj {[ "url" := Py.JStr "old";
                                                   "note" := Py.JStr "x" ]} ]};
               "theme" := Py.JStr "dark" ]}
    = Py.JObj top /\ top !! "mcpServers" = Some (Py.JObj servers) /\
    Some (Zapier.Document
            (Py.JObj {[ "mcpServers" :=
                          Py.JObj {[ "browsermcp" := Py.JObj {[ "command" := Py.JStr "npx" ]};
                                     "zapier" := Py.JObj {[ "url" := Py.JStr "https://actions.zapier.com/mcp/xyz" ]} ]};
                        "theme" := Py.JStr "dark" ]}))
    = Some (Zapier.Document (Py.JObj top')) /\
    top' !! "mcpServers" = Some (Py.JObj servers') /\
    servers' !! "zapier"
    = Some (Py.JObj {[ "url" := Py.JStr "https://actions.zapier.com/mcp/xyz" ]}) /\
    (forall name, name ≠ "zapier" -> servers' !! name = servers !! name) /\
    (forall key, key ≠ "mcpServers" -> top' !! key = top !! key).
Proof.
  apply (update_rewrites_only_zapier
           {[ "url" := Py.JStr "https://actions.zapier.com/mcp/xyz" ]}
           "https://actions.zapier.com/mcp/xyz" _
           (Py.JObj {[ "status" := Py.JStr "success";
                       "url" := Py.JStr "https://actions.zapier.com/mcp/xyz" ]}));
    reflexivity.
Defined.

(** ** Agent tasks *)

Section TaskFacts.
Import Py Tasks.

Lemma truthy_false_iff v :
  truthy v = false <->
  v = JNull \/ v = JBool false \/ v = JInt 0 \/ (exists s, v = JFloat (S754_zero s)) \/
  v = JStr "" \/ v = JArr [] \/ v = JObj ∅.
Proof.
  split.
  - destruct v as [|b|n|f|s|l|m]; cbn; intros H.
    + auto.
    + subst b. auto.
    + apply negb_false_iff, Z.eqb_eq in H. subst n. auto.
    + destruct f; try discriminate. right; right; right; left. eauto.
    + destruct s; try discriminate. auto 10.
    + destruct l; try discriminate. auto 10.
    + apply negb_false_iff, bool_decide_eq_true in H. subst m. auto 10.
  - intros [->|[->|[->|[[s ->]|[->|[->| ->]]]]]]; reflexivity.
Qed.

Lemma create_rejects now payload db :
  truthy (default JNull (payload !! "name")) = false \/
  truthy (default JNull (payload !! "task")) = false ->
  create_agent_task now payload db = (HTTPException 400 "Name and task are required", db).
Proof.
  intros H. unfold create_agent_task.
  destruct H as [-> | ->]; cbn [negb orb]; [reflexivity|].
  rewrite orb_true_r. reflexivity.
Qed.

(** A [POST] that answers [Ok] appended one row, under an id that was
    not in the table. *)
Lemma create_ok_inv now payload db body db' :
  create_agent_task now payload db = (Ok body, db') ->
  exists row,
    body = JObj {[ "id" := JStr (task_id (utcnow_ms now)); "status" := JStr "created" ]} /\
    has_id (task_id (utcnow_ms now)) db = false /\
    id row = task_id (utcnow_ms now) /\
    created_at row = current_timestamp now /\
    db' = (db ++ [row])%list.
Proof.
  unfold create_agent_task.
  destruct (negb _ || negb _); [discriminate|].
  unfold insert_task.
  destruct (bind_param (default JNull (payload !! "name"))) as [e|n]; cbn; [discriminate|].
  destruct (bind_param (default JNull (payload !! "description"))) as [e|d]; cbn; [discriminate|].
  destruct (bind_param (default JNull (payload !! "task"))) as [e|t]; cbn; [discriminate|].
  destruct (is_null n || is_null t || has_id _ db) eqn:Hc; cbn; [discriminate|].
  apply orb_false_iff in Hc as [_ Hid].
  intros [= <- <-]. eexists. repeat split; try reflexivity. exact Hid.
Qed.

Lemma has_id_app i db1 db2 :
  has_id i (db1 ++ db2)%list = has_id i db1 || has_id i db2.
Proof. unfold has_id. apply existsb_app. Qed.




Lemma has_id_self row : has_id (id row) [row] = true.
Proof. unfold has_id. cbn. rewrite String.eqb_refl. reflexivity. Qed.

(** The number in a task id is the clock reading it was made from. *)
Lemma to_int_not_nil n : Z.to_int n <> Decimal.Pos Decimal.Nil /\ Z.to_int n <> Decimal.Neg Decimal.Nil.
Proof.
  destruct n as [|p|p]; cbn; split; try discriminate;
    intros [= H]; revert H; apply Unsigned.to_uint_nonnil.
Qed.

Lemma task_stamp_prefixed digits :
  task_stamp ("task_" ++ digits) = option_map Z.of_int (NilZero.int_of_string digits).
Proof. reflexivity. Qed.

Lemma task_stamp_task_id ms : task_stamp (task_id ms) = Some ms.
Proof.
  unfold task_id, str_of_int. rewrite task_stamp_prefixed.
  destruct (to_int_not_nil ms) as [H1 H2].
  rewrite NilZero.isi by assumption. cbn [option_map].
  rewrite DecimalZ.of_to. reflexivity.
Qed.

Lemma task_id_inj a b : task_id a = task_id b -> a = b.
Proof.
  intros H. apply (f_equal task_stamp) in H.
  rewrite !task_stamp_task_id in H. congruence.
Qed.


End TaskFacts.

(** *** [ORDER BY created_at DESC] *)

Section Ordering.
Import Tasks.

Lemma ascii_compare_refl c : Ascii.compare c c = Eq.
Proof. unfold Ascii.compare. apply N.compare_refl. Qed.

Lemma ascii_compare_gt_trans x y z :
  Ascii.compare x y = Gt -> Ascii.compare y z = Gt -> Ascii.compare x z = Gt.
Proof.
  unfold Ascii.compare. rewrite !N.compare_gt_iff. lia.
Qed.

(** [b <= a] and [c <= b] give [c <= a], in the byte order of strings. *)
Lemma ltb_false_trans : forall a b c,
  String.ltb a b = false -> String.ltb b c = false -> String.ltb a c = false.
Proof.
  unfold String.ltb.
  induction a as [|x a IH]; intros [|y b] [|z c]; cbn; try congruence.
  destruct (Ascii.compare x y) eqn:Hxy; try congruence;
    destruct (Ascii.compare y z) eqn:Hyz; try congruence; intros Hab Hbc.
  - apply Ascii.compare_eq_iff in Hxy, Hyz. subst.
    rewrite ascii_compare_refl. eauto.
  - apply Ascii.compare_eq_iff in Hxy. subst. rewrite Hyz. reflexivity.
  - apply Ascii.compare_eq_iff in Hyz. subst. rewrite Hxy. reflexivity.
  - rewrite (ascii_compare_gt_trans _ _ _ Hxy Hyz). reflexivity.
Qed.

Lemma ltb_true_false a b : String.ltb a b = true -> String.ltb b a = false.
Proof.
  unfold String.ltb. rewrite (String.compare_antisym a b).
  destruct (String.compare b a); cbn; congruence.
Qed.

Lemma ltb_irrefl a : String.ltb a a = false.
Proof.
  destruct (String.ltb a a) eqn:H; [|reflexivity].
  pose proof (ltb_true_false _ _ H). congruence.
Qed.

Lemma insert_row_perm r : forall rows, Permutation (r :: rows) (insert_row r rows).
Proof.
  induction rows as [|x xs IH]; cbn; [reflexivity|].
  destruct (String.ltb _ _); [|reflexivity].
  rewrite perm_swap. apply perm_skip, IH.
Qed.

Lemma insert_row_sorted r : forall rows,
  StronglySorted newer_or_equal rows ->
  StronglySorted newer_or_equal (insert_row r rows).
Proof.
  induction rows as [|x xs IH]; cbn; intros Hs.
  - repeat constructor.
  - apply StronglySorted_inv in Hs as [Hxs Hx].
    destruct (String.ltb (created_at r) (created_at x)) eqn:Hrx.
    + constructor; [auto|].
      apply (Permutation_Forall (insert_row_perm r xs)).
      constructor; [|exact Hx]. apply ltb_true_false, Hrx.
    + constructor; [constructor; assumption|].
      constructor; [exact Hrx|].
      eapply List.Forall_impl; [|exact Hx].
      intros y Hxy. unfold newer_or_equal in *.
      eapply ltb_false_trans; eassumption.
Qed.

(** The sorter's listing is one of those SQL allows. *)
Lemma order_by_is_ordered_listing db :
  ordered_listing db (order_by_created_at_desc db).
Proof.
  split.
  - induction db as [|r rs IH]; cbn; [constructor|].
    rewrite <- insert_row_perm. apply perm_skip, IH.
  - induction db as [|r rs IH]; cbn; [constructor|].
    apply insert_row_sorted, IH.
Qed.



End Ordering.

(** *** The claims on [create_agent_task] and [get_agent_tasks] *)

(** C5. A payload without ["name"] or without ["task"] is answered with
    [HTTPException(400)] and the table is the one the handler was given. *)
Theorem missing_field_rejected
    (now : Tasks.clock) (payload : gmap string Py.value) (db : Tasks.table) :
  payload !! "name" = None \/ payload !! "task" = None ->
  Tasks.create_agent_task now payload db
  = (Py.HTTPException 400 "Name and task are required", db).
Proof.
  intros H. apply create_rejects. destruct H as [-> | ->]; auto.
Qed.

Lemma missing_field_rejected_witness :
  Tasks.create_agent_task Sample.at_600 {[ "name" := Py.JStr "t1" ]} [Sample.older_row]
  = (Py.HTTPException 400 "Name and task are required", [Sample.older_row]).
Proof.
  apply (missing_field_rejected Sample.at_600 {[ "name" := Py.JStr "t1" ]}).
  right. reflexivity.
Defined.

(** C10. A payload whose ["name"] or ["task"] is present but falsy (an
    empty string, [None], [0], [0.0], [False], an empty list or dict) is
    rejected in the same way, with no row inserted. *)
Theorem falsy_field_rejected
    (now : Tasks.clock) (payload : gmap string Py.value) (db : Tasks.table)
    (v : Py.value) :
  payload !! "name" = Some v \/ payload !! "task" = Some v ->
  Py.truthy v = false ->
  Tasks.create_agent_task now payload db
  = (Py.HTTPException 400 "Name and task are required", db).
Proof.
  intros H Hv. apply create_rejects. destruct H as [-> | ->]; auto.
Qed.

Lemma falsy_field_rejected_witness :
  Tasks.create_agent_task Sample.at_600
    {[ "name" := Py.JStr ""; "task" := Py.JStr "scrape prices" ]} [Sample.older_row]
  = (Py.HTTPException 400 "Name and task are required", [Sample.older_row]).
Proof.
  apply (falsy_field_rejected Sample.at_600
           {[ "name" := Py.JStr ""; "task" := Py.JStr "scrape prices" ]} _ (Py.JStr "")).
  - left. reflexivity.
  - reflexivity.
Defined.

Section ScenarioFacts.
Import Py Tasks.

Lemma created_id_body i :
  created_id (Ok (JObj {[ "id" := JStr i; "status" := JStr "created" ]})) = Some i.
Proof.
  unfold created_id. rewrite lookup_insert_eq.
  rewrite lookup_insert_ne by discriminate. rewrite lookup_singleton_eq. reflexivity.
Qed.



End ScenarioFacts.

(** The stored row of the examples is what an earlier POST leaves. *)
Example older_row_created :
  Tasks.create_agent_task Sample.at_100
    {[ "name" := Py.JStr "t0"; "task" := Py.JStr "older" ]} []
  = (Py.Ok (Py.JObj {[ "id" := Py.JStr "task_1700000000100"; "status" := Py.JStr "created" ]}),
     [Sample.older_row]).
Proof. vm_compute. reflexivity. Qed.

(** Numbers are accepted as names and kept by their text; lists are not
    bound. *)
Example create_with_number_name :
  snd (Tasks.create_agent_task Sample.at_100
         {[ "name" := Py.JInt 5; "task" := Py.JBool true ]} [])
  = [ {| Tasks.id := "task_1700000000100"; Tasks.name := Tasks.SqlText "5";
         Tasks.description := Tasks.SqlNull; Tasks.task := Tasks.SqlText "1";
         Tasks.created_at := "2023-11-14 22:13:20"; Tasks.last_result := Tasks.SqlNull |} ].
Proof. vm_compute. reflexivity. Qed.

Example create_with_list_name :
  Tasks.create_agent_task Sample.at_100
    {[ "name" := Py.JArr [Py.JInt 1]; "task" := Py.JStr "x" ]} []
  = (Py.Uncaught Py.ProgrammingError, []).
Proof. vm_compute. reflexivity. Qed.



(** The table of that example is not in listing order: the GET before
    the POST lists the later of its two tasks first, and the GET after it
    lists the new task before both. *)
Example listing_after_two_older_tasks :
  Tasks.order_by_created_at_desc [Fixtures.earlier_row; Sample.older_row]
  = [Sample.older_row; Fixtures.earlier_row] /\
  Tasks.order_by_created_at_desc
    (snd (Tasks.create_agent_task Fixtures.at_next_second Sample.payload_t1
            [Fixtures.earlier_row; Sample.older_row]))
  = [Sample.row_t1 Fixtures.at_next_second; Sample.older_row; Fixtures.earlier_row].
Proof. split; vm_compute; reflexivity. Qed.


(** *** Decimal texts of equal length compare as their numbers *)

Section DecimalOrder.
Import Decimal.
Local Open Scope N_scope.










Local Open Scope Z_scope.




End DecimalOrder.




(** ** Progress-step generator *)

Section ProgressFacts.
Import Py Progress.

Lemma isdigit_not_dot c : isdigit c = true -> Ascii.eqb c "." = false.
Proof.
  intros H. destruct (Ascii.eqb_spec c "."); [subst c; discriminate H | reflexivity].
Qed.

(** Past the numeral, the first ["."] is the marker's. *)
Lemma split_after_digits : forall s body,
  skip_digits s = String "." body -> item1 (split_dot_once s) = ret body.
Proof.
  induction s as [|c r IH]; intros body H; cbn in H; [discriminate|].
  cbn [split_dot_once]. destruct (isdigit c) eqn:Hd.
  - rewrite (isdigit_not_dot _ Hd). specialize (IH _ H).
    destruct (split_dot_once r) as [|p [|q qs]]; cbn in IH; try discriminate.
    exact IH.
  - injection H as -> ->. reflexivity.
Qed.

(** No ["."], no second piece. *)
Lemma split_without_dot : forall s,
  has_dot s = false -> item1 (split_dot_once s) = raise IndexError.
Proof.
  induction s as [|c r IH]; cbn; intros H; [reflexivity|].
  apply orb_false_iff in H as [Hc Hr]. rewrite Hc. specialize (IH Hr).
  destruct (split_dot_once r) as [|p [|q qs]]; cbn in IH |- *;
    try reflexivity; discriminate.
Qed.

Lemma parse_line_other steps line :
  begins_with_numeral line = false -> parse_line steps line = ret steps.
Proof.
  unfold begins_with_numeral, parse_line.
  destruct (strip line) as [|c r]; [reflexivity|]. intros ->. reflexivity.
Qed.

Lemma parse_line_item steps line text :
  item_text line = Some text -> parse_line steps line = ret (steps ++ [text])%list.
Proof.
  unfold item_text, begins_with_numeral, parse_line.
  destruct (strip line) as [|c r] eqn:Hl; [discriminate|].
  destruct (isdigit c) eqn:Hd; [|discriminate].
  destruct (skip_digits (String c r)) as [|d body] eqn:Hs; [discriminate|].
  destruct (Ascii.eqb_spec d "."); [subst d|].
  - rewrite (split_after_digits _ _ Hs). cbn [bind ret].
    destruct (strip body); [discriminate|]. intros [= <-]. reflexivity.
  - destruct d as [[] [] [] [] [] [] [] []]; try discriminate; congruence.
Qed.

Lemma parse_line_no_dot steps line :
  begins_with_numeral line = true -> has_dot (strip line) = false ->
  parse_line steps line = raise IndexError.
Proof.
  unfold begins_with_numeral, parse_line.
  destruct (strip line) as [|c r]; [discriminate|]. intros -> Hdot.
  rewrite (split_without_dot _ Hdot). reflexivity.
Qed.

(** On well-formed lines the loop appends the text of each numbered
    line, in order. *)
Lemma parse_lines_well_formed : forall lines steps,
  well_formed_lines lines = true ->
  parse_lines steps lines = ret (steps ++ omap item_text lines)%list.
Proof.
  induction lines as [|line rest IH]; intros steps Hwf; cbn.
  - rewrite app_nil_r. reflexivity.
  - cbn in Hwf. apply andb_true_iff in Hwf as [Hline Hrest].
    destruct (begins_with_numeral line) eqn:Hn; cbn in Hline.
    + apply bool_decide_eq_true in Hline as [text Ht].
      rewrite (parse_line_item _ _ _ Ht), Ht. cbn [bind ret].
      rewrite (IH _ Hrest), <- app_assoc. reflexivity.
    + rewrite (parse_line_other _ _ Hn). cbn [bind ret].
      assert (item_text line = None) as -> by (unfold item_text; rewrite Hn; reflexivity).
      apply IH, Hrest.
Qed.

Lemma item_text_nonempty line text : item_text line = Some text -> text <> "".
Proof.
  unfold item_text. destruct (begins_with_numeral line); [|discriminate].
  destruct (skip_digits _) as [|d body]; [discriminate|].
  destruct d as [[] [] [] [] [] [] [] []]; try discriminate.
  destruct (strip body); [discriminate|]. intros [= <-]. discriminate.
Qed.

Lemma omap_item_text_length lines :
  well_formed_lines lines = true ->
  length (omap item_text lines) = length (List.filter begins_with_numeral lines).
Proof.
  induction lines as [|line rest IH]; intros Hwf; [reflexivity|].
  cbn in Hwf. apply andb_true_iff in Hwf as [Hline Hrest].
  cbn [omap list_omap List.filter].
  destruct (begins_with_numeral line) eqn:Hn; cbn in Hline.
  - apply bool_decide_eq_true in Hline as [text Ht]. rewrite Ht.
    cbn. rewrite (IH Hrest). reflexivity.
  - assert (item_text line = None) as -> by (unfold item_text; rewrite Hn; reflexivity).
    apply IH, Hrest.
Qed.

Lemma numbered_lines_items : forall lines,
  well_formed_lines lines = true ->
  Forall2 (fun line step => item_text line = Some step)
          (List.filter begins_with_numeral lines) (omap item_text lines).
Proof.
  induction lines as [|line rest IH]; intros Hwf; [constructor|].
  cbn in Hwf. apply andb_true_iff in Hwf as [Hline Hrest].
  cbn [omap list_omap List.filter].
  destruct (begins_with_numeral line) eqn:Hn; cbn in Hline.
  - apply bool_decide_eq_true in Hline as [text Ht]. rewrite Ht.
    constructor; [exact Ht | apply IH, Hrest].
  - assert (item_text line = None) as -> by (unfold item_text; rewrite Hn; reflexivity).
    apply IH, Hrest.
Qed.

(** What [item_text] reads: the stripped line is a numeral, ["."], and
    a body whose stripped form is the text. *)
Lemma skip_digits_split : forall s rest,
  skip_digits s = rest ->
  exists marker, s = marker ++ rest /\ all_digits marker = true.
Proof.
  induction s as [|c r IH]; intros rest H; cbn in H.
  - exists "". subst. split; reflexivity.
  - destruct (isdigit c) eqn:Hd.
    + destruct (IH _ H) as (m & -> & Hm). exists (String c m).
      split; [reflexivity|]. cbn. rewrite Hd, Hm. reflexivity.
    + exists "". subst. split; reflexivity.
Qed.

Lemma item_text_format line text :
  item_text line = Some text ->
  exists marker body,
    strip line = marker ++ "." ++ body /\
    marker <> "" /\ all_digits marker = true /\
    text = strip body /\ text <> "".
Proof.
  intros H. pose proof (item_text_nonempty _ _ H) as Hne.
  unfold item_text, begins_with_numeral in H.
  destruct (strip line) as [|c r] eqn:Hl; [discriminate|].
  destruct (isdigit c) eqn:Hd; [|discriminate].
  destruct (skip_digits (String c r)) as [|d body] eqn:Hs; [discriminate|].
  destruct (Ascii.eqb_spec d ".");
    [subst d | destruct d as [[] [] [] [] [] [] [] []]; try discriminate; congruence].
  destruct (skip_digits_split _ _ Hs) as (marker & Hm & Hall).
  exists marker, body. split; [exact Hm|]. split.
  - intros ->. cbn in Hm. injection Hm as -> _. discriminate Hd.
  - split; [exact Hall|]. split; [|exact Hne].
    destruct (strip body); [discriminate|]. congruence.
Qed.

End ProgressFacts.

(** The string functions on a few texts, as Python answers on them. *)
Example splitlines_mixed_breaks :
  Progress.splitlines ("a" ++ Sample.cr ++ Sample.lf ++ "b" ++ Sample.lf ++ Sample.lf ++ "c"
                       ++ Sample.cr ++ "d" ++ Sample.lf)
  = ["a"; "b"; ""; "c"; "d"].
Proof. reflexivity. Qed.

Example splitlines_empty : Progress.splitlines "" = [].
Proof. reflexivity. Qed.

Example strip_both_ends :
  Progress.strip ("  1. Open  the page " ++ Sample.lf) = "1. Open  the page".
Proof. reflexivity. Qed.

Example split_dot_once_first_only :
  Progress.split_dot_once "10.a.b" = ["10"; "a.b"] /\
  Progress.split_dot_once "1) x" = ["1) x"].
Proof. split; reflexivity. Qed.

Example parse_steps_three :
  Progress.parse_steps Sample.three_steps
  = inr ["Open the browser"; "Search for the item"; "Read the price"].
Proof. reflexivity. Qed.

(** A line that begins with a digit is taken for a step whatever
    follows, cut at its first ["."]. *)
Example parse_steps_year :
  Progress.parse_steps "2024 was a good year. Really" = inr ["Really"].
Proof. reflexivity. Qed.

(** C3, as the code has it.  [max_steps] goes into the prompt and nowhere
    else.  When every line of the reply that begins with a numeral reads
    [N. text] with a text that is not blank, [generate_progress_steps]
    returns the texts of these lines in order: one entry for each such
    line, so at most 6 entries when the reply has at most 6 of them, each
    entry non-empty and each the line without its marker. *)
Theorem progress_steps_of_well_formed_reply
    (generate_content : string -> string) (prompt : string) :
  Progress.well_formed_response
    (generate_content (Progress.system_prompt prompt 6)) = true ->
  exists steps,
    Progress.generate_progress_steps generate_content prompt 6 = inr steps /\
    Forall2 (fun line step => Progress.item_text line = Some step)
            (Progress.numbered_lines (generate_content (Progress.system_prompt prompt 6)))
            steps /\
    Forall (fun step => step <> "") steps /\
    length steps
    = length (Progress.numbered_lines (generate_content (Progress.system_prompt prompt 6))) /\
    (length (Progress.numbered_lines (generate_content (Progress.system_prompt prompt 6))) <= 6 ->
     length steps <= 6).
Proof.
  intros Hwf. unfold Progress.well_formed_response in Hwf.
  exists (omap Progress.item_text
            (Progress.splitlines (generate_content (Progress.system_prompt prompt 6)))).
  unfold Progress.generate_progress_steps, Progress.parse_steps, Progress.numbered_lines.
  rewrite (parse_lines_well_formed _ _ Hwf).
  split; [reflexivity|].
  pose proof (numbered_lines_items _ Hwf) as Hitems.
  split; [exact Hitems|]. split.
  - induction Hitems as [|line step ls ss Hi _ IH]; constructor; [|exact IH].
    eapply item_text_nonempty, Hi.
  - rewrite (omap_item_text_length _ Hwf). split; [reflexivity | auto].
Qed.

Lemma progress_steps_of_well_formed_reply_witness :
  exists steps,
    Progress.generate_progress_steps (Sample.replies Sample.three_steps) "buy a kettle" 6
    = inr steps /\
    Forall2 (fun line step => Progress.item_text line = Some step)
            (Progress.numbered_lines Sample.three_steps) steps /\
    Forall (fun step => step <> "") steps /\
    length steps = length (Progress.numbered_lines Sample.three_steps) /\
    (length (Progress.numbered_lines Sample.three_steps) <= 6 -> length steps <= 6).
Proof.
  apply (progress_steps_of_well_formed_reply (Sample.replies Sample.three_steps) "buy a kettle").
  vm_compute. reflexivity.
Defined.

(** C3 as stated fails on a numbered list of seven steps: all seven come
    back, with [max_steps = 6]. *)
Lemma seven_steps_returned :
  Progress.well_formed_response Sample.seven_steps = true /\
  Progress.generate_progress_steps (Sample.replies Sample.seven_steps) "buy a kettle" 6
  = inr [ "Open the browser"; "Go to the site"; "Search for the item";
          "Open the first result"; "Read the price"; "Add it to the cart";
          "Close the browser" ] /\
  ~ (length [ "Open the browser"; "Go to the site"; "Search for the item";
              "Open the first result"; "Read the price"; "Add it to the cart";
              "Close the browser" ] <= 6).
Proof.
  split; [vm_compute; reflexivity|]. split; [vm_compute; reflexivity|].
  cbn. lia.
Qed.

(** C4, at a reply the parser does not survive: a line that begins with
    a numeral and has no ["."] makes [line.split(".", 1)[1]] raise
    [IndexError]; the line is not discarded and no list is returned. *)
Theorem parenthesis_list_raises :
  Progress.splitlines Sample.parenthesis_steps
  = [ "1) Open the browser"; "2) Read the price" ] /\
  Progress.parse_steps Sample.parenthesis_steps = inl Py.IndexError /\
  Progress.generate_progress_steps (Sample.replies Sample.parenthesis_steps) "buy a kettle" 6
  = inl Py.IndexError.
Proof.
  repeat split; vm_compute; reflexivity.
Qed.

(** ** Background metrics logger *)

Section MetricsFacts.
Import Metrics.

Lemma loop_gen_mon interval : monotone2 (loop_gen interval).
Proof.
  intros p t r r' H LE. unfold loop_gen in *.
  induction H; constructor; auto.
Qed.

(** The invariant of the coinduction: the loop at its head, or one
    silent step before it. *)
Lemma logger_or_tau_keeps_logging interval (t : itree metricsE raised) :
  observe t = observe (periodic_metrics_logger interval) \/
  observe t = TauF (periodic_metrics_logger interval) ->
  keeps_logging interval Logging t.
Proof.
  pose proof (loop_gen_mon interval) as Hmon.
  revert t. pcofix CIH. intros t Ht.
  assert (Hhead : loopF interval (upaco2 (loop_gen interval) r) Logging
                    (observe (periodic_metrics_logger interval))).
  { cbn. apply loop_log. intros o Ho.
    destruct o as [|[e|e]]; cbn in Ho; try contradiction; cbn.
    - left. pfold. unfold loop_gen. cbn. apply loop_sleep. intros [].
      right. apply CIH. right. reflexivity.
    - left. pfold. unfold loop_gen. cbn. apply loop_print. intros [].
      left. pfold. unfold loop_gen. cbn. apply loop_sleep. intros [].
      right. apply CIH. right. reflexivity. }
  pfold. unfold loop_gen. destruct Ht as [-> | ->].
  - exact Hhead.
  - apply loop_tau. exact Hhead.
Qed.

(** What the invariant says of runs: a tree that keeps logging never
    ends on a script of calls that return or raise an [Exception],
    whatever the fuel. *)
Lemma keeps_logging_never_ends interval : forall fuel p t script e,
  keeps_logging interval p t ->
  forallb caughtb script = true ->
  snd (run fuel t script) <> Ended e.
Proof.
  pose proof (loop_gen_mon interval) as Hmon.
  induction fuel as [|fuel IH]; intros p t script e Hk Hs; [discriminate|].
  punfold Hk. unfold loop_gen in Hk. cbn [run].
  remember (observe t) as ot eqn:Hot. clear Hot.
  induction Hk as [p t' Hk IHk | k Hk | msg k Hk | k Hk].
  - destruct fuel as [|fuel']; [discriminate|].
    apply (IH p t' script e); [|exact Hs]. pfold. exact Hk.
  - cbn [answer]. destruct script as [|o script]; [discriminate|].
    cbn in Hs. apply andb_true_iff in Hs as [Ho Hs].
    assert (Hc : caught o) by (destruct o as [|[|]]; [exact I | exact I | discriminate Ho]).
    destruct (Hk o Hc) as [Hp | []].
    specialize (IH _ _ script e Hp Hs).
    destruct (run fuel (k o) script). exact IH.
  - cbn [answer]. destruct (Hk tt) as [Hp | []].
    specialize (IH _ _ script e Hp Hs).
    destruct (run fuel (k tt) script). exact IH.
  - cbn [answer]. destruct (Hk tt) as [Hp | []].
    specialize (IH _ _ script e Hp Hs).
    destruct (run fuel (k tt) script). exact IH.
Qed.

(** A tree that returns does not keep logging. *)
Lemma keeps_logging_not_ret interval p e : ~ keeps_logging interval p (Ret e).
Proof.
  pose proof (loop_gen_mon interval) as Hmon.
  intros Hk. pose proof (keeps_logging_never_ends interval 1 p (Ret e) [] e Hk eq_refl) as H.
  apply H. reflexivity.
Qed.

(** The same on a finite script: with fuel for four steps an iteration,
    a run over calls that return or raise an [Exception] shows every
    iteration in full and stops at the next call, the loop still on. *)
Lemma run_caught_script interval : forall script fuel,
  forallb caughtb script = true ->
  4 * length script < fuel ->
  run fuel (periodic_metrics_logger interval) script
  = (flat_map (iteration_events interval) script, Waiting).
Proof.
  induction script as [|o script IH]; intros fuel Hc Hf.
  - destruct fuel as [|fuel]; [cbn in Hf; lia|]. reflexivity.
  - cbn in Hc. apply andb_true_iff in Hc as [Ho Hc].
    cbn [length] in Hf.
    destruct fuel as [|[|[|[|fuel]]]]; try lia.
    assert (IH1 : run (S fuel) (periodic_metrics_logger interval) script
                  = (flat_map (iteration_events interval) script, Waiting))
      by (apply IH; [assumption | lia]).
    specialize (IH fuel Hc ltac:(lia)).
    destruct o as [|[e|e]]; [| |discriminate Ho].
    + cbn [flat_map iteration_events app].
      change (run (S (S (S (S fuel)))) (periodic_metrics_logger interval) (Returned :: script))
        with (let '(tr, st) :=
                (let '(tr, st) := run (S fuel) (periodic_metrics_logger interval) script
                 in (Slept interval :: tr, st))
              in (Called :: tr, st)).
      rewrite IH1. reflexivity.
    + cbn [flat_map iteration_events app].
      change (run (S (S (S (S fuel)))) (periodic_metrics_logger interval)
                  (Raised (AnException e) :: script))
        with (let '(tr, st) :=
                (let '(tr, st) :=
                   (let '(tr, st) := run fuel (periodic_metrics_logger interval) script
                    in (Slept interval :: tr, st))
                 in (Printed ("[Periodic Logger] Error: " ++ e) :: tr, st))
              in (Called :: tr, st)).
      rewrite IH. reflexivity.
Qed.

End MetricsFacts.

(** C9. The background task, [periodic_metrics_logger(60)], never returns
    as long as [log_system_metrics()] returns or raises an instance of
    [Exception]: after every call it prints the exception, if there is
    one, sleeps 60 seconds and calls again. *)
Theorem metrics_logger_keeps_logging :
  Metrics.keeps_logging 60 Metrics.Logging Metrics.background_task.
Proof.
  apply logger_or_tau_keeps_logging. left. reflexivity.
Qed.

(** Three iterations, the second one failing. *)
Example metrics_logger_three_iterations :
  Metrics.run 13 Metrics.background_task
    [Metrics.Returned; Metrics.Raised (Metrics.AnException "disk full"); Metrics.Returned]
  = ([Metrics.Called; Metrics.Slept 60;
      Metrics.Called; Metrics.Printed "[Periodic Logger] Error: disk full"; Metrics.Slept 60;
      Metrics.Called; Metrics.Slept 60],
     Metrics.Waiting).
Proof. reflexivity. Qed.

(** What [except Exception] lets through ends the task. *)
Example metrics_logger_exit :
  Metrics.run 13 Metrics.background_task
    [Metrics.Returned; Metrics.Raised (Metrics.AnExit "SystemExit"); Metrics.Returned]
  = ([Metrics.Called; Metrics.Slept 60; Metrics.Called],
     Metrics.Ended (Metrics.AnExit "SystemExit")).
Proof. reflexivity. Qed.

(* ===================================================================== *)
(** * Part III. Further properties of the handlers                        *)
(* ===================================================================== *)

(** ** Zapier MCP configuration: when the POST succeeds, when it fails *)

Section ZapierMore.
Import Py Zapier.

Lemma updated_config_ok_iff url st :
  (exists config, updated_config url st = inr config) <-> well_formed st = true.
Proof.
  split.
  - intros [config Hc]. destruct st as [[|doc]|]; [discriminate Hc| |reflexivity].
    apply updated_config_inv in Hc as (top & servers & -> & Hs & _).
    cbn. rewrite Hs. reflexivity.
  - intros Hwf. destruct st as [[|doc]|]; cbn in Hwf; try discriminate.
    + destruct doc as [| | | | | |top]; try discriminate.
      destruct (top !! "mcpServers") as [[| | | | | |servers]|] eqn:Hs; try discriminate.
      rewrite (updated_config_document _ _ _ Hs). eauto.
    + rewrite updated_config_absent. eauto.
Qed.

Lemma prefix_of_empty : String.prefix required_prefix "" = false.
Proof. reflexivity. Qed.

(** The three ways the handler goes, by the ["url"] of the payload. *)
Lemma update_cases payload st :
  (exists url, payload !! "url" = Some (JStr url) /\
               String.prefix required_prefix url = true /\
               update_zapier_mcp payload st =
                 match updated_config url st with
                 | inl e => (Uncaught e, st)
                 | inr config =>
                     (Ok (JObj {[ "status" := JStr "success"; "url" := JStr url ]}),
                      Some (Document config))
                 end) \/
  ((payload !! "url" = None \/
    exists url, payload !! "url" = Some (JStr url) /\
                String.prefix required_prefix url = false) /\
   update_zapier_mcp payload st = (HTTPException 400 "Invalid Zapier URL format", st)) \/
  ((exists v, payload !! "url" = Some v /\ forall s, v <> JStr s) /\
   update_zapier_mcp payload st = (Uncaught AttributeError, st)).
Proof.
  destruct (payload !! "url") as [v|] eqn:Hp.
  - destruct v as [|b|n|f|url|l|m];
      try (right; right; split; [eexists; split; [reflexivity | intros s; discriminate] |];
           unfold update_zapier_mcp; rewrite Hp; reflexivity).
    destruct (String.prefix required_prefix url) eqn:Hpre.
    + left. exists url. split; [reflexivity|]. split; [exact Hpre|].
      apply update_accepts; assumption.
    + right. left. split; [right; eauto|].
      unfold update_zapier_mcp. rewrite Hp. cbn [default from_option id].
      rewrite Hpre. reflexivity.
  - right. left. split; [left; reflexivity|].
    unfold update_zapier_mcp. rewrite Hp. reflexivity.
Qed.

End ZapierMore.

(** X1. The POST answers [Ok] exactly when the payload carries a string
    URL with the required prefix and the store is absent or a document
    whose ["mcpServers"] entry is an object. *)
Theorem update_succeeds_iff (payload : gmap string Py.value) (st : Zapier.store) :
  (exists body st', Zapier.update_zapier_mcp payload st = (Py.Ok body, st')) <->
  (exists url, payload !! "url" = Some (Py.JStr url) /\
               String.prefix Zapier.required_prefix url = true) /\
  Zapier.well_formed st = true.
Proof.
  split.
  - intros (body & st' & H).
    destruct (update_cases payload st) as [(url & Hp & Hpre & Hu) | [[_ Hu] | [_ Hu]]];
      rewrite Hu in H; try discriminate.
    split; [eauto|]. apply (updated_config_ok_iff url).
    destruct (Zapier.updated_config url st) as [e|config]; [discriminate | eauto].
  - intros [(url & Hp & Hpre) Hwf]. rewrite (update_accepts _ _ _ Hp Hpre).
    apply (updated_config_ok_iff url) in Hwf as [config ->]. eauto.
Qed.

(** X2. Whatever goes wrong, the POST writes nothing: when the response
    is not [Ok], the store is the one the handler was given. *)
Theorem update_failure_keeps_store (payload : gmap string Py.value) (st : Zapier.store) :
  (forall body, fst (Zapier.update_zapier_mcp payload st) <> Py.Ok body) ->
  snd (Zapier.update_zapier_mcp payload st) = st.
Proof.
  intros Hr.
  destruct (update_cases payload st) as [(url & Hp & Hpre & Hu) | [[_ Hu] | [_ Hu]]];
    rewrite Hu in *; try reflexivity.
  destruct (Zapier.updated_config url st) as [e|config]; [reflexivity|].
  exfalso. eapply Hr. reflexivity.
Qed.

Lemma update_failure_keeps_store_witness :
  snd (Zapier.update_zapier_mcp {[ "url" := Py.JStr Fixtures.zapier_url ]}
         (Some (Zapier.Document (Py.JArr []))))
  = Some (Zapier.Document (Py.JArr [])).
Proof.
  apply (update_failure_keeps_store {[ "url" := Py.JStr Fixtures.zapier_url ]}
           (Some (Zapier.Document (Py.JArr [])))).
  intros body. vm_compute. discriminate.
Defined.

(** X3. The POST answers 400 exactly when the payload has no ["url"] or
    has a string there that lacks the prefix. *)
Theorem update_rejects_iff (payload : gmap string Py.value) (st : Zapier.store) :
  fst (Zapier.update_zapier_mcp payload st)
  = Py.HTTPException 400 "Invalid Zapier URL format" <->
  payload !! "url" = None \/
  exists url, payload !! "url" = Some (Py.JStr url) /\
              String.prefix Zapier.required_prefix url = false.
Proof.
  split.
  - intros H.
    destruct (update_cases payload st) as [(url & Hp & Hpre & Hu) | [[Hc Hu] | [_ Hu]]];
      rewrite Hu in H.
    + destruct (Zapier.updated_config url st); discriminate H.
    + exact Hc.
    + discriminate H.
  - intros Hc.
    destruct (update_cases payload st) as [(url & Hp & Hpre & Hu) | [[_ Hu] | [Hv Hu]]].
    + destruct Hc as [Hc | (url' & Hc & Hpre')]; congruence.
    + rewrite Hu. reflexivity.
    + destruct Hv as (v & Hv & Hns).
      destruct Hc as [Hc | (url' & Hc & _)]; [congruence|].
      rewrite Hc in Hv. injection Hv as <-. exfalso. eapply Hns. reflexivity.
Qed.

(** X4. A ["url"] that is not a string is not a validation error: the
    call of [startswith] raises [AttributeError], and nothing is written. *)
Theorem update_non_string_url
    (payload : gmap string Py.value) (st : Zapier.store) (v : Py.value) :
  payload !! "url" = Some v ->
  (forall s, v <> Py.JStr s) ->
  Zapier.update_zapier_mcp payload st = (Py.Uncaught Py.AttributeError, st).
Proof.
  intros Hp Hv.
  destruct (update_cases payload st) as [(url & Hp' & _) | [[Hc _] | [_ Hu]]].
  - rewrite Hp in Hp'. injection Hp' as ->. exfalso. eapply Hv. reflexivity.
  - destruct Hc as [Hc | (url & Hc & _)]; [congruence|].
    rewrite Hp in Hc. injection Hc as ->. exfalso. eapply Hv. reflexivity.
  - exact Hu.
Qed.

Lemma update_non_string_url_witness :
  Zapier.update_zapier_mcp {[ "url" := Py.JNull ]} None = (Py.Uncaught Py.AttributeError, None).
Proof.
  apply (update_non_string_url {[ "url" := Py.JNull ]} None Py.JNull).
  - reflexivity.
  - intros s. discriminate.
Defined.

Section ZapierRuns.
Import Py Zapier.

Lemma post_all_keeps_well_formed payloads : forall st,
  well_formed st = true -> well_formed (ZapierRun.post_all payloads st) = true.
Proof.
  induction payloads as [|payload rest IH]; intros st Hwf; cbn; [exact Hwf|].
  apply IH, update_keeps_well_formed, Hwf.
Qed.

Lemma get_document top :
  get_zapier_mcp (Some (Document (JObj top)))
  = match ZapierRun.level "mcpServers" top with
    | JObj servers =>
        match ZapierRun.level "zapier" servers with
        | JObj zapier => Ok (JObj {[ "url" := default (JStr "") (zapier !! "url") ]})
        | _ => Uncaught AttributeError
        end
    | _ => Uncaught AttributeError
    end.
Proof.
  unfold get_zapier_mcp, ZapierRun.level. cbn.
  destruct (default (JObj ∅) (top !! "mcpServers")) as [| | | | | |servers]; try reflexivity.
  cbn. destruct (default (JObj ∅) (servers !! "zapier")); reflexivity.
Qed.

End ZapierRuns.

(** X5. The last write wins: after a POST that succeeded, a second POST
    with a valid URL answers, and leaves the store, as it would have
    without the first.  Posting the same URL twice is posting it once. *)
Theorem update_last_write_wins
    (payload1 payload2 : gmap string Py.value) (url2 : string)
    (st st1 : Zapier.store) (body1 : Py.value) :
  Zapier.update_zapier_mcp payload1 st = (Py.Ok body1, st1) ->
  payload2 !! "url" = Some (Py.JStr url2) ->
  String.prefix Zapier.required_prefix url2 = true ->
  Zapier.update_zapier_mcp payload2 st1 = Zapier.update_zapier_mcp payload2 st.
Proof.
  intros H1 Hp2 Hpre2.
  destruct (update_cases payload1 st) as [(url1 & Hp1 & Hpre1 & Hu) | [[_ Hu] | [_ Hu]]];
    rewrite Hu in H1; try discriminate.
  rewrite !(update_accepts _ _ _ Hp2 Hpre2).
  destruct st as [[|doc]|].
  - discriminate H1.
  - destruct (Zapier.updated_config url1 _) as [e|config] eqn:Hc; [discriminate|].
    injection H1 as _ <-.
    destruct (updated_config_inv _ _ _ Hc) as (top & servers & -> & Hs & ->).
    rewrite (updated_config_document url2 top servers Hs).
    rewrite (updated_config_document url2 _ (<["zapier" := Py.JObj {[ "url" := Py.JStr url1 ]}]> servers))
      by apply lookup_insert_eq.
    rewrite !insert_insert_eq. reflexivity.
  - rewrite updated_config_absent in H1. injection H1 as _ <-.
    rewrite updated_config_absent.
    rewrite (updated_config_document url2 _ {[ "zapier" := Py.JObj {[ "url" := Py.JStr url1 ]} ]})
      by apply lookup_singleton_eq.
    rewrite !insert_singleton_eq. reflexivity.
Qed.

Lemma update_last_write_wins_witness :
  Zapier.update_zapier_mcp (Fixtures.post_of Fixtures.other_url)
    (snd (Zapier.update_zapier_mcp (Fixtures.post_of Fixtures.zapier_url) Fixtures.browser_config))
  = Zapier.update_zapier_mcp (Fixtures.post_of Fixtures.other_url) Fixtures.browser_config.
Proof.
  apply (update_last_write_wins (Fixtures.post_of Fixtures.zapier_url)
           (Fixtures.post_of Fixtures.other_url) Fixtures.other_url Fixtures.browser_config _
           (Py.JObj {[ "status" := Py.JStr "success"; "url" := Py.JStr Fixtures.zapier_url ]}));
    reflexivity.
Defined.

(** X6. The GET answers an empty URL, and raises nothing, when the file
    is absent or when ["mcpServers"], its ["zapier"] entry or the ["url"]
    of that entry is missing from the document. *)
Theorem get_missing_gives_empty_url (st : Zapier.store) :
  st = None \/
  (exists top,
     st = Some (Zapier.Document (Py.JObj top)) /\
     (top !! "mcpServers" = None \/
      exists servers,
        top !! "mcpServers" = Some (Py.JObj servers) /\
        (servers !! "zapier" = None \/
         exists zapier,
           servers !! "zapier" = Some (Py.JObj zapier) /\ zapier !! "url" = None))) ->
  Zapier.get_zapier_mcp st = Py.Ok (Py.JObj {[ "url" := Py.JStr "" ]}).
Proof.
  intros [-> | (top & -> & H)]; [reflexivity|].
  rewrite get_document. unfold ZapierRun.level.
  destruct H as [-> | (servers & -> & H)]; cbn [default from_option id];
    [rewrite lookup_empty; reflexivity|].
  destruct H as [-> | (zapier & -> & Hu)]; cbn [default from_option id];
    [rewrite lookup_empty | rewrite Hu]; reflexivity.
Qed.

Lemma get_missing_gives_empty_url_witness :
  Zapier.get_zapier_mcp Fixtures.browser_config = Py.Ok (Py.JObj {[ "url" := Py.JStr "" ]}).
Proof.
  apply (get_missing_gives_empty_url Fixtures.browser_config).
  right. eexists. split; [reflexivity|].
  right. eexists. split; [reflexivity|]. left. reflexivity.
Defined.

(** X7. The GET never answers with an HTTP error, and it raises exactly
    when the file does not parse, or the document is not an object, or
    ["mcpServers"] or its ["zapier"] entry is there and is not an
    object. *)
Theorem get_raises_iff (st : Zapier.store) :
  (forall code detail, Zapier.get_zapier_mcp st <> Py.HTTPException code detail) /\
  ((exists e, Zapier.get_zapier_mcp st = Py.Uncaught e) <->
   st = Some Zapier.Unparsable \/
   (exists doc, st = Some (Zapier.Document doc) /\ ZapierRun.is_object doc = false) \/
   (exists top,
      st = Some (Zapier.Document (Py.JObj top)) /\
      ZapierRun.is_object (ZapierRun.level "mcpServers" top) = false) \/
   (exists top servers,
      st = Some (Zapier.Document (Py.JObj top)) /\
      ZapierRun.level "mcpServers" top = Py.JObj servers /\
      ZapierRun.is_object (ZapierRun.level "zapier" servers) = false)).
Proof.
  destruct st as [[|doc]|].
  - split; [intros; discriminate|]. split; [auto | intros _; eexists; reflexivity].
  - destruct (ZapierRun.is_object doc) eqn:Hdoc.
    + destruct doc as [| | | | | |top]; try discriminate Hdoc.
      rewrite get_document.
      destruct (ZapierRun.is_object (ZapierRun.level "mcpServers" top)) eqn:Hl.
      * destruct (ZapierRun.level "mcpServers" top) as [| | | | | |servers] eqn:Hs;
          try discriminate Hl.
        destruct (ZapierRun.is_object (ZapierRun.level "zapier" servers)) eqn:Hz.
        -- destruct (ZapierRun.level "zapier" servers) as [| | | | | |zapier] eqn:Hzs;
             try discriminate Hz.
           split; [intros; discriminate|]. split; [intros [e He]; discriminate He|].
           intros [H | [(d & [= <-] & H) | [(t & [= <-] & H) | (t & sv & [= <-] & Hsv & H)]]];
             try discriminate; try congruence.
        -- assert (Hget : match ZapierRun.level "zapier" servers with
                          | Py.JObj zapier =>
                              Py.Ok (Py.JObj {[ "url" := default (Py.JStr "") (zapier !! "url") ]})
                          | _ => Py.Uncaught Py.AttributeError
                          end = Py.Uncaught Py.AttributeError)
             by (destruct (ZapierRun.level "zapier" servers); try reflexivity; discriminate Hz).
           rewrite Hget. split; [intros; discriminate|].
           split; [|intros _; eexists; reflexivity].
           intros _. right. right. right. exists top, servers. auto.
      * assert (Hget : match ZapierRun.level "mcpServers" top with
                       | Py.JObj servers =>
                           match ZapierRun.level "zapier" servers with
                           | Py.JObj zapier =>
                               Py.Ok (Py.JObj {[ "url" := default (Py.JStr "") (zapier !! "url") ]})
                           | _ => Py.Uncaught Py.AttributeError
                           end
                       | _ => Py.Uncaught Py.AttributeError
                       end = Py.Uncaught Py.AttributeError)
          by (destruct (ZapierRun.level "mcpServers" top); try reflexivity; discriminate Hl).
        rewrite Hget. split; [intros; discriminate|].
        split; [|intros _; eexists; reflexivity].
        intros _. right. right. left. exists top. auto.
    + assert (Hget : Zapier.get_zapier_mcp (Some (Zapier.Document doc))
                     = Py.Uncaught Py.AttributeError)
        by (destruct doc; try reflexivity; discriminate Hdoc).
      rewrite Hget. split; [intros; discriminate|].
      split; [|intros _; eexists; reflexivity].
      intros _. right. left. exists doc. auto.
  - split; [intros; discriminate|]. split.
    + intros [e He]. discriminate He.
    + intros [H | [(d & H & _) | [(t & H & _) | (t & sv & H & _)]]]; discriminate H.
Qed.

(** X8. From a store of the documented shape, whatever POSTs came before
    (accepted or not), a POST with a valid URL is accepted and the GET
    that follows reads that URL. *)
Theorem update_succeeds_after_any_posts
    (payloads : list (gmap string Py.value)) (payload : gmap string Py.value)
    (url : string) (st : Zapier.store) :
  Zapier.well_formed st = true ->
  payload !! "url" = Some (Py.JStr url) ->
  String.prefix Zapier.required_prefix url = true ->
  Zapier.get_zapier_mcp (ZapierRun.post_all (payloads ++ [payload]) st)
  = Py.Ok (Py.JObj {[ "url" := Py.JStr url ]}).
Proof.
  intros Hwf Hp Hpre.
  assert (Hrun : forall ps st0,
             ZapierRun.post_all (ps ++ [payload]) st0
             = snd (Zapier.update_zapier_mcp payload (ZapierRun.post_all ps st0))).
  { induction ps as [|p ps IH]; intros st0; cbn; [reflexivity | apply IH]. }
  rewrite Hrun.
  pose proof (post_all_keeps_well_formed payloads st Hwf) as Hwf'.
  rewrite (update_accepts _ _ _ Hp Hpre).
  destruct (ZapierRun.post_all payloads st) as [[|doc]|]; cbn in Hwf'; try discriminate.
  - destruct doc as [| | | | | |top]; try discriminate.
    destruct (top !! "mcpServers") as [[| | | | | |servers]|] eqn:Hs; try discriminate.
    rewrite (updated_config_document _ _ _ Hs). cbn [snd]. apply get_after_write.
  - rewrite updated_config_absent. cbn [snd].
    rewrite <- (insert_empty (M:=gmap string) "mcpServers").
    rewrite <- (insert_empty (M:=gmap string) "zapier" (Py.JObj {[ "url" := Py.JStr url ]})).
    apply get_after_write.
Qed.

Lemma update_succeeds_after_any_posts_witness :
  Zapier.get_zapier_mcp
    (ZapierRun.post_all
       ([ {[ "url" := Py.JStr "http://evil.com" ]}; Fixtures.post_of Fixtures.other_url;
          {[ "url" := Py.JNull ]} ] ++ [Fixtures.post_of Fixtures.zapier_url])
       None)
  = Py.Ok (Py.JObj {[ "url" := Py.JStr Fixtures.zapier_url ]}).
Proof.
  apply (update_succeeds_after_any_posts _ (Fixtures.post_of Fixtures.zapier_url)
           Fixtures.zapier_url None); reflexivity.
Defined.

(** ** [ORDER BY ... DESC], for any table and key *)

Section SqlFacts.
Context {A : Type} (key : A -> string).

Lemma insert_desc_perm r : forall rows, Permutation (r :: rows) (Sql.insert_desc key r rows).
Proof.
  induction rows as [|x xs IH]; cbn; [reflexivity|].
  destruct (String.ltb _ _); [|reflexivity].
  rewrite perm_swap. apply perm_skip, IH.
Qed.

Lemma order_by_desc_perm : forall rows, Permutation rows (Sql.order_by_desc key rows).
Proof.
  induction rows as [|r rs IH]; cbn; [constructor|].
  rewrite <- insert_desc_perm. apply perm_skip, IH.
Qed.

Lemma insert_desc_sorted r : forall rows,
  StronglySorted (Sql.key_ge key) rows -> StronglySorted (Sql.key_ge key) (Sql.insert_desc key r rows).
Proof.
  induction rows as [|x xs IH]; cbn; intros Hs.
  - repeat constructor.
  - apply StronglySorted_inv in Hs as [Hxs Hx].
    destruct (String.ltb (key r) (key x)) eqn:Hrx.
    + constructor; [auto|].
      apply (Permutation_Forall (insert_desc_perm r xs)).
      constructor; [|exact Hx]. apply ltb_true_false, Hrx.
    + constructor; [constructor; assumption|].
      constructor; [exact Hrx|].
      eapply List.Forall_impl; [|exact Hx].
      intros y Hxy. unfold Sql.key_ge in *. eapply ltb_false_trans; eassumption.
Qed.

Lemma order_by_desc_sorted : forall rows, StronglySorted (Sql.key_ge key) (Sql.order_by_desc key rows).
Proof.
  induction rows as [|r rs IH]; cbn; [constructor|]. apply insert_desc_sorted, IH.
Qed.

(** Rows of one key keep the order they had. *)
Lemma insert_desc_with_key k r : forall rows,
  Sql.with_key key k (Sql.insert_desc key r rows)
  = Sql.with_key key k (r :: rows).
Proof.
  unfold Sql.with_key.
  induction rows as [|x xs IH]; [reflexivity|].
  cbn [Sql.insert_desc]. destruct (String.ltb (key r) (key x)) eqn:Hrx; [|reflexivity].
  cbn [List.filter] in *. rewrite IH.
  destruct (String.eqb_spec (key r) k) as [Hr|Hr]; [|reflexivity].
  destruct (String.eqb_spec (key x) k) as [Hx|Hx]; [|reflexivity].
  rewrite Hr, Hx, ltb_irrefl in Hrx. discriminate.
Qed.

Lemma order_by_desc_with_key k : forall rows,
  Sql.with_key key k (Sql.order_by_desc key rows) = Sql.with_key key k rows.
Proof.
  induction rows as [|r rs IH]; [reflexivity|].
  cbn [Sql.order_by_desc]. rewrite insert_desc_with_key.
  unfold Sql.with_key in *. cbn [List.filter]. rewrite IH. reflexivity.
Qed.

End SqlFacts.

Lemma tasks_order_by_is_sql (db : Tasks.table) :
  Tasks.order_by_created_at_desc db = Sql.order_by_desc Tasks.created_at db.
Proof.
  induction db as [|r rs IH]; cbn; [reflexivity|]. rewrite IH.
  generalize (Sql.order_by_desc Tasks.created_at rs). intros l.
  induction l as [|x xs IHl]; cbn; [reflexivity|]. rewrite IHl. reflexivity.
Qed.

(** ** Agent tasks: what every request does to the table *)

Section TaskMore.
Import Py Tasks.

(** A POST either appends one row and answers with its id, or answers
    something else and leaves the table. *)
Lemma create_cases now payload db :
  (exists row,
     create_agent_task now payload db
     = (Ok (JObj {[ "id" := JStr (task_id (utcnow_ms now)); "status" := JStr "created" ]}),
        (db ++ [row])%list) /\
     id row = task_id (utcnow_ms now) /\
     created_at row = current_timestamp now /\
     has_id (task_id (utcnow_ms now)) db = false) \/
  (exists r, create_agent_task now payload db = (r, db) /\ forall body, r <> Ok body).
Proof.
  destruct (create_agent_task now payload db) as [r db'] eqn:Hc.
  destruct r as [body|code detail|e].
  - left. apply create_ok_inv in Hc as (row & -> & Hfresh & Hid & Hat & ->). eauto 10.
  - right. unfold create_agent_task in Hc.
    destruct (negb _ || negb _); [|destruct (insert_task _ _ _ _ _ _); discriminate].
    injection Hc as <- <- <-. eexists. split; [reflexivity | discriminate].
  - right. unfold create_agent_task in Hc.
    destruct (negb _ || negb _); [discriminate|].
    destruct (insert_task _ _ _ _ _ _); [|discriminate].
    injection Hc as <- <-. eexists. split; [reflexivity | discriminate].
Qed.

Lemma created_id_get db : created_id (get_agent_tasks db) = None.
Proof.
  unfold created_id, get_agent_tasks.
  rewrite lookup_singleton_ne by discriminate. reflexivity.
Qed.

Lemma created_id_not_ok r : (forall body, r <> Ok body) -> created_id r = None.
Proof. destruct r as [body| |]; [intros H; exfalso; eapply H; reflexivity | reflexivity..]. Qed.

Lemma is_null_false v : is_null v = false <-> v <> SqlNull.
Proof. destruct v; cbn; split; (congruence || discriminate). Qed.

(** The exact conditions of the insertion. *)
Lemma insert_task_ok_iff now i n d t db :
  (exists db', insert_task now i n d t db = inr db') <->
  (exists n', bind_param n = inr n' /\ n' <> SqlNull) /\
  (exists d', bind_param d = inr d') /\
  (exists t', bind_param t = inr t' /\ t' <> SqlNull) /\
  has_id i db = false.
Proof.
  unfold insert_task.
  destruct (bind_param n) as [e|n']; cbn [bind];
    [split; [intros [? H]; discriminate H | intros ([? [H _]] & _); discriminate H]|].
  destruct (bind_param d) as [e|d']; cbn [bind];
    [split; [intros [? H]; discriminate H | intros (_ & [? H] & _); discriminate H]|].
  destruct (bind_param t) as [e|t']; cbn [bind];
    [split; [intros [? H]; discriminate H | intros (_ & _ & [? [H _]] & _); discriminate H]|].
  destruct (is_null n') eqn:Hn; cbn [orb].
  - split; [intros [? H]; discriminate H|].
    intros ([x [[= <-] Hx]] & _). apply is_null_false in Hx. congruence.
  - destruct (is_null t') eqn:Ht; cbn [orb].
    + split; [intros [? H]; discriminate H|].
      intros (_ & _ & [x [[= <-] Hx]] & _). apply is_null_false in Hx. congruence.
    + apply is_null_false in Hn, Ht. destruct (has_id i db).
      * split; [intros [? H]; discriminate H | intros (_ & _ & _ & H); discriminate H].
      * split; [intros _; eauto 10 | intros _; eexists; reflexivity].
Qed.

Lemma create_ok_conditions now payload db :
  (exists body db', create_agent_task now payload db = (Ok body, db')) <->
  truthy (default JNull (payload !! "name")) = true /\
  truthy (default JNull (payload !! "task")) = true /\
  (exists n, bind_param (default JNull (payload !! "name")) = inr n /\ n <> SqlNull) /\
  (exists d, bind_param (default JNull (payload !! "description")) = inr d) /\
  (exists t, bind_param (default JNull (payload !! "task")) = inr t /\ t <> SqlNull) /\
  has_id (task_id (utcnow_ms now)) db = false.
Proof.
  unfold create_agent_task. cbv zeta.
  destruct (truthy (default JNull (payload !! "name"))); cbn [negb orb];
    [|split; [intros (? & ? & H); discriminate H | intros (H & _); discriminate H]].
  destruct (truthy (default JNull (payload !! "task"))); cbn [negb orb];
    [|split; [intros (? & ? & H); discriminate H | intros (_ & H & _); discriminate H]].
  rewrite <- (insert_task_ok_iff now (task_id (utcnow_ms now))).
  destruct (insert_task now _ _ _ _ db) as [e|db'].
  - split; [intros (? & ? & H); discriminate H | intros (_ & _ & [? H]); discriminate H].
  - split; [intros _; eauto | intros _; eauto].
Qed.

End TaskMore.

(** ** Agent tasks: the process and the lock a failed INSERT leaves *)

Section ProcessFacts.
Import Py Tasks.

Lemma bind_param_raises v e :
  bind_param v = inl e -> e = OverflowError \/ e = ProgrammingError.
Proof.
  destruct v as [|b|z|f|s|l|m]; cbn; try discriminate.
  - destruct (_ && _); [discriminate|]. intros [= <-]. auto.
  - destruct f; discriminate.
  - intros [= <-]. auto.
  - intros [= <-]. auto.
Qed.

(** [bind_params] is the binding that [insert_task] begins with. *)
Lemma bind_params_raises now i n d t db e :
  Process.bind_params n d t = inl e ->
  insert_task now i n d t db = inl e /\ (e = OverflowError \/ e = ProgrammingError).
Proof.
  unfold Process.bind_params, insert_task.
  destruct (bind_param n) as [e1|n'] eqn:Hn; cbn [bind].
  { intros [= <-]. eauto using bind_param_raises. }
  destruct (bind_param d) as [e1|d'] eqn:Hd; cbn [bind].
  { intros [= <-]. eauto using bind_param_raises. }
  destruct (bind_param t) as [e1|t'] eqn:Ht; cbn [bind].
  { intros [= <-]. eauto using bind_param_raises. }
  discriminate.
Qed.

Lemma bind_params_bound now i n d t db u e :
  Process.bind_params n d t = inr u ->
  insert_task now i n d t db = inl e -> e = IntegrityError.
Proof.
  unfold Process.bind_params, insert_task.
  destruct (bind_param n) as [e1|n']; cbn [bind]; [discriminate|].
  destruct (bind_param d) as [e1|d']; cbn [bind]; [discriminate|].
  destruct (bind_param t) as [e1|t']; cbn [bind]; [discriminate|].
  intros _. destruct (_ || _); [|discriminate]. intros [= <-]. reflexivity.
Qed.

(** With no lock held the process answers as [Tasks.create_agent_task]
    does on its rows. *)
Lemma process_create_unlocked now payload st :
  Process.locked st = false ->
  fst (Process.create_agent_task now payload st)
  = fst (create_agent_task now payload (Process.rows st)) /\
  Process.rows (snd (Process.create_agent_task now payload st))
  = snd (create_agent_task now payload (Process.rows st)).
Proof.
  intros Hl. unfold Process.create_agent_task, create_agent_task. cbv zeta.
  destruct (negb _ || negb _); [split; reflexivity|].
  destruct (Process.bind_params _ _ _) as [e|u] eqn:Hb.
  - destruct (bind_params_raises now (task_id (utcnow_ms now)) _ _ _ (Process.rows st) _ Hb)
      as [-> _].
    split; reflexivity.
  - rewrite Hl. destruct (insert_task _ _ _ _ _ _); split; reflexivity.
Qed.

(** While the lock is held no POST stores anything. *)
Lemma process_create_locked now payload st :
  Process.locked st = true ->
  snd (Process.create_agent_task now payload st) = st /\
  forall body, fst (Process.create_agent_task now payload st) <> Ok body.
Proof.
  intros Hl. unfold Process.create_agent_task. cbv zeta.
  destruct (negb _ || negb _); [split; [reflexivity | discriminate]|].
  destruct (Process.bind_params _ _ _); [split; [reflexivity | discriminate]|].
  rewrite Hl. split; [reflexivity | discriminate].
Qed.

(** A POST that would succeed on some table is answered, under the
    lock, with [OperationalError]. *)
Lemma process_create_locked_valid now payload st body db db' :
  Process.locked st = true ->
  create_agent_task now payload db = (Ok body, db') ->
  Process.create_agent_task now payload st = (Uncaught OperationalError, st).
Proof.
  intros Hl Hc. unfold Process.create_agent_task. cbv zeta.
  unfold create_agent_task in Hc. cbv zeta in Hc.
  destruct (negb _ || negb _); [discriminate|].
  destruct (Process.bind_params _ _ _) as [e|u] eqn:Hb.
  - destruct (bind_params_raises now (task_id (utcnow_ms now)) _ _ _ db _ Hb) as [Hi _].
    rewrite Hi in Hc. discriminate.
  - rewrite Hl. reflexivity.
Qed.

(** A POST of the process either appends one row and answers with its
    id, or answers something else and leaves the rows. *)
Lemma process_create_cases now payload st :
  (exists row,
     Process.create_agent_task now payload st
     = (Ok (JObj {[ "id" := JStr (task_id (utcnow_ms now)); "status" := JStr "created" ]}),
        {| Process.rows := (Process.rows st ++ [row])%list; Process.locked := false |}) /\
     id row = task_id (utcnow_ms now) /\
     Process.locked st = false) \/
  (exists r st',
     Process.create_agent_task now payload st = (r, st') /\
     Process.rows st' = Process.rows st /\
     (Process.locked st = true -> st' = st) /\
     forall body, r <> Ok body).
Proof.
  destruct (Process.locked st) eqn:Hl.
  - right. destruct (process_create_locked now payload st Hl) as [Hs Hr].
    destruct (Process.create_agent_task now payload st) as [r st']. cbn [fst snd] in *.
    subst st'. exists r, st. auto.
  - destruct (process_create_unlocked now payload st Hl) as [Hf Hs].
    destruct (create_cases now payload (Process.rows st))
      as [(row & Hc & Hid & _) | (r & Hc & Hr)]; rewrite Hc in Hf, Hs; cbn [fst snd] in Hf, Hs.
    + left. exists row. split; [|auto].
      unfold Process.create_agent_task in *. cbv zeta in *.
      unfold create_agent_task in Hc. cbv zeta in Hc.
      destruct (negb _ || negb _); [discriminate|].
      destruct (Process.bind_params _ _ _); [discriminate|].
      rewrite Hl in *.
      destruct (insert_task _ _ _ _ _ _); [discriminate|].
      injection Hc as <-. reflexivity.
    + right. destruct (Process.create_agent_task now payload st) as [r' st'].
      cbn [fst snd] in *. subst r'. exists r, st'. repeat split; auto. discriminate.
Qed.

Lemma process_handle_keeps_ids rq st i :
  has_id i (Process.rows st) = true ->
  has_id i (Process.rows (snd (Process.handle rq st))) = true.
Proof.
  intros Hi. destruct rq as [|now payload]; cbn [Process.handle snd]; [exact Hi|].
  destruct (process_create_cases now payload st)
    as [(row & Hc & _) | (r & st' & Hc & Hrows & _)]; rewrite Hc; cbn [snd Process.rows].
  - rewrite has_id_app, Hi. reflexivity.
  - rewrite Hrows. exact Hi.
Qed.

Lemma process_serve_keeps_ids evs : forall st i,
  has_id i (Process.rows st) = true ->
  has_id i (Process.rows (snd (Process.serve evs st))) = true.
Proof.
  induction evs as [|[rq|] rest IH]; intros st i Hi; cbn [Process.serve snd]; [exact Hi| |].
  - pose proof (process_handle_keeps_ids rq st i Hi) as H1.
    destruct (Process.handle rq st) as [r st1]. cbn [snd] in H1.
    specialize (IH st1 i H1).
    destruct (Process.serve rest st1) as [rs st2]. exact IH.
  - apply IH. exact Hi.
Qed.

(** Under the lock, requests alone leave the state and create nothing. *)
Lemma process_serve_locked rqs : forall st,
  Process.locked st = true ->
  snd (Process.serve (map Process.Request rqs) st) = st /\
  Forall (fun r => created_id r = None) (fst (Process.serve (map Process.Request rqs) st)).
Proof.
  induction rqs as [|rq rest IH]; intros st Hl; cbn [map Process.serve fst snd];
    [split; [reflexivity | constructor]|].
  assert (Hrq : exists r, Process.handle rq st = (r, st) /\ created_id r = None).
  { destruct rq as [|now payload]; cbn [Process.handle].
    - eexists. split; [reflexivity | apply created_id_get].
    - destruct (process_create_locked now payload st Hl) as [Hs Hr].
      destruct (Process.create_agent_task now payload st) as [r st']. cbn [fst snd] in *.
      subst st'. exists r. split; [reflexivity | apply created_id_not_ok, Hr]. }
  destruct Hrq as (r & -> & Hr). destruct (IH st Hl) as [Hs Hf].
  destruct (Process.serve (map Process.Request rest) st) as [rs st2]. cbn [fst snd] in *.
  split; [exact Hs | constructor; assumption].
Qed.

Lemma process_create_ok_conditions now payload st :
  (exists body st', Process.create_agent_task now payload st = (Ok body, st')) <->
  truthy (default JNull (payload !! "name")) = true /\
  truthy (default JNull (payload !! "task")) = true /\
  (exists n, bind_param (default JNull (payload !! "name")) = inr n /\ n <> SqlNull) /\
  (exists d, bind_param (default JNull (payload !! "description")) = inr d) /\
  (exists t, bind_param (default JNull (payload !! "task")) = inr t /\ t <> SqlNull) /\
  Process.locked st = false /\
  has_id (task_id (utcnow_ms now)) (Process.rows st) = false.
Proof.
  destruct (Process.locked st) eqn:Hl.
  - destruct (process_create_locked now payload st Hl) as [_ Hr]. split.
    + intros (body & st' & H). exfalso. apply (Hr body). rewrite H. reflexivity.
    + intros (_ & _ & _ & _ & _ & H & _). discriminate H.
  - destruct (process_create_unlocked now payload st Hl) as [Hf _].
    assert (Hsame : (exists body st', Process.create_agent_task now payload st = (Ok body, st'))
                    <-> (exists body db',
                           create_agent_task now payload (Process.rows st) = (Ok body, db'))).
    { split.
      - intros (body & st' & H). rewrite H in Hf. cbn [fst] in Hf.
        destruct (create_agent_task now payload (Process.rows st)) as [r db']. cbn [fst] in Hf.
        subst r. eauto.
      - intros (body & db' & H). rewrite H in Hf. cbn [fst] in Hf.
        destruct (Process.create_agent_task now payload st) as [r st']. cbn [fst] in Hf.
        subst r. eauto. }
    pose proof (create_ok_conditions now payload (Process.rows st)) as Hcond.
    tauto.
Qed.

End ProcessFacts.


(** A NaN for a name passes the check of the handler, is bound as NULL
    and fails the NOT NULL constraint; the connection of that request
    then keeps out the next POST, until it is reclaimed. *)
Example nan_name_then_locked :
  Process.serve
    [Process.Request (Tasks.CreateTask Sample.at_100 Fixtures.payload_nan_name);
     Process.Request (Tasks.CreateTask Sample.at_500 Sample.payload_t1);
     Process.Request Tasks.GetTasks;
     Process.Reclaim;
     Process.Request (Tasks.CreateTask Sample.at_600 Sample.payload_t1)]
    (Process.at_rest [])
  = ([Py.Uncaught Py.IntegrityError;
      Py.Uncaught Py.OperationalError;
      Py.Ok (Py.JObj {[ "tasks" := Py.JArr [] ]});
      Py.Ok (Py.JObj {[ "id" := Py.JStr "task_1700000000600"; "status" := Py.JStr "created" ]})],
     Process.at_rest [Sample.row_t1 Sample.at_600]).
Proof. vm_compute. reflexivity. Qed.

(** X10. Requests only ever append to the table: after any run, the
    table is the one before followed by one row for each response that
    reported a created id, in the order of the responses and under
    those ids.  No request changes or removes a stored row. *)
Theorem serve_appends_created (rqs : list Tasks.request) (db : Tasks.table) :
  exists added,
    snd (Tasks.serve rqs db) = (db ++ added)%list /\
    map Tasks.id added = omap Tasks.created_id (fst (Tasks.serve rqs db)).
Proof.
  revert db. induction rqs as [|rq rest IH]; intros db.
  - exists []. split; [symmetry; apply app_nil_r | reflexivity].
  - cbn [Tasks.serve].
    assert (Hrq : exists r one,
               Tasks.handle rq db = (r, (db ++ one)%list) /\
               map Tasks.id one
               = match Tasks.created_id r with Some i => [i] | None => [] end).
    { destruct rq as [|now payload]; cbn [Tasks.handle].
      - exists (Tasks.get_agent_tasks db), []. rewrite app_nil_r.
        rewrite created_id_get. auto.
      - destruct (create_cases now payload db) as [(row & Hc & Hid & _) | (r & Hc & Hr)].
        + eexists _, [row]. split; [exact Hc|].
          rewrite created_id_body, <- Hid. reflexivity.
        + exists r, []. rewrite app_nil_r. split; [exact Hc|].
          rewrite (created_id_not_ok _ Hr). reflexivity. }
    destruct Hrq as (r & one & -> & Hone).
    destruct (IH (db ++ one)%list) as (added & Hs & Hids).
    destruct (Tasks.serve rest (db ++ one)%list) as [rs db2]. cbn [fst snd] in *.
    exists (one ++ added)%list. split; [rewrite Hs, app_assoc; reflexivity|].
    rewrite map_app, Hone, Hids. cbn [omap list_omap].
    destruct (Tasks.created_id r); reflexivity.
Qed.

(** X11. One id for one millisecond: once a POST has succeeded, then
    after whatever requests and reclaimed connections follow, no POST that
    reads the same millisecond from the clock succeeds, whatever its
    payload, and it stores nothing; the same payload again raises
    [IntegrityError] on the primary key, or [OperationalError] when the
    connection of a failed POST still holds the lock. *)
Theorem same_millisecond_rejected
    (now1 now2 : Tasks.clock) (payload1 payload2 : gmap string Py.value)
    (between : list Process.event) (st0 st1 : Process.state) (body1 : Py.value) :
  Process.create_agent_task now1 payload1 st0 = (Py.Ok body1, st1) ->
  Tasks.utcnow_ms now2 = Tasks.utcnow_ms now1 ->
  (forall body,
     fst (Process.create_agent_task now2 payload2 (snd (Process.serve between st1)))
     <> Py.Ok body) /\
  Process.rows (snd (Process.create_agent_task now2 payload2 (snd (Process.serve between st1))))
  = Process.rows (snd (Process.serve between st1)) /\
  fst (Process.create_agent_task now2 payload1 (snd (Process.serve between st1)))
  = Py.Uncaught (if Process.locked (snd (Process.serve between st1))
                 then Py.OperationalError else Py.IntegrityError).
Proof.
  intros H1 Hms.
  assert (Hok : exists body st', Process.create_agent_task now1 payload1 st0 = (Py.Ok body, st'))
    by eauto.
  apply process_create_ok_conditions in Hok.
  destruct (process_create_cases now1 payload1 st0)
    as [(row1 & Hc1 & Hrow1 & _) | (r & st' & Hc1 & _ & _ & Hr)];
    rewrite Hc1 in H1; [|exfalso; injection H1 as -> _; eapply Hr; reflexivity].
  injection H1 as _ <-.
  set (st := snd (Process.serve between _)).
  assert (Hin : Tasks.has_id (Tasks.task_id (Tasks.utcnow_ms now2)) (Process.rows st) = true).
  { rewrite Hms. apply process_serve_keeps_ids. cbn [Process.rows].
    rewrite has_id_app, <- Hrow1, has_id_self. apply orb_true_r. }
  assert (Hno : forall payload body,
             fst (Process.create_agent_task now2 payload st) <> Py.Ok body).
  { intros payload body Hb.
    assert (Hex : exists body st', Process.create_agent_task now2 payload st = (Py.Ok body, st')).
    { destruct (Process.create_agent_task now2 payload st) as [r st']. cbn [fst] in Hb.
      subst r. eauto. }
    apply process_create_ok_conditions in Hex as (_ & _ & _ & _ & _ & _ & Hfresh).
    congruence. }
  split; [apply Hno|]. split.
  - destruct (process_create_cases now2 payload2 st)
      as [(row & Hc & _) | (r & st' & Hc & Hrows & _)]; rewrite Hc; cbn [snd]; [|exact Hrows].
    exfalso. eapply (Hno payload2). rewrite Hc. reflexivity.
  - destruct Hok as (Hn & Ht & [n [Hbn _]] & [d Hbd] & [t [Hbt _]] & _).
    unfold Process.create_agent_task. cbv zeta. rewrite Hn, Ht. cbn [negb orb].
    unfold Process.bind_params, Tasks.insert_task. rewrite Hbn, Hbd, Hbt. cbn [Py.bind Py.ret].
    destruct (Process.locked st); [reflexivity|].
    rewrite Hin, !orb_true_r. reflexivity.
Qed.

Lemma same_millisecond_rejected_witness :
  (forall body,
     fst (Process.create_agent_task Sample.at_100 Fixtures.payload_t2
            (snd (Process.serve
                    [Process.Request Tasks.GetTasks;
                     Process.Request (Tasks.CreateTask Sample.at_100 Fixtures.payload_t2)]
                    (Process.at_rest [Sample.row_t1 Sample.at_100]))))
     <> Py.Ok body) /\
  Process.rows
    (snd (Process.create_agent_task Sample.at_100 Fixtures.payload_t2
            (snd (Process.serve
                    [Process.Request Tasks.GetTasks;
                     Process.Request (Tasks.CreateTask Sample.at_100 Fixtures.payload_t2)]
                    (Process.at_rest [Sample.row_t1 Sample.at_100])))))
  = Process.rows
      (snd (Process.serve
              [Process.Request Tasks.GetTasks;
               Process.Request (Tasks.CreateTask Sample.at_100 Fixtures.payload_t2)]
              (Process.at_rest [Sample.row_t1 Sample.at_100]))) /\
  fst (Process.create_agent_task Sample.at_100 Sample.payload_t1
         (snd (Process.serve
                 [Process.Request Tasks.GetTasks;
                  Process.Request (Tasks.CreateTask Sample.at_100 Fixtures.payload_t2)]
                 (Process.at_rest [Sample.row_t1 Sample.at_100]))))
  = Py.Uncaught
      (if Process.locked
            (snd (Process.serve
                    [Process.Request Tasks.GetTasks;
                     Process.Request (Tasks.CreateTask Sample.at_100 Fixtures.payload_t2)]
                    (Process.at_rest [Sample.row_t1 Sample.at_100])))
       then Py.OperationalError else Py.IntegrityError).
Proof.
  apply (same_millisecond_rejected Sample.at_100 Sample.at_100 Sample.payload_t1
           Fixtures.payload_t2
           [Process.Request Tasks.GetTasks;
            Process.Request (Tasks.CreateTask Sample.at_100 Fixtures.payload_t2)]
           (Process.at_rest [])
           (Process.at_rest [Sample.row_t1 Sample.at_100])
           (Py.JObj {[ "id" := Py.JStr "task_1700000000100"; "status" := Py.JStr "created" ]})).
  - vm_compute. reflexivity.
  - reflexivity.
Defined.

(** In that run the second POST of the millisecond fails on the primary
    key and leaves the lock, so the third is answered
    [OperationalError]; with the connection reclaimed it is the primary
    key again. *)
Example same_millisecond_twice :
  fst (Process.serve
         [Process.Request (Tasks.CreateTask Sample.at_100 Sample.payload_t1);
          Process.Request (Tasks.CreateTask Sample.at_100 Fixtures.payload_t2);
          Process.Request (Tasks.CreateTask Sample.at_100 Sample.payload_t1);
          Process.Reclaim;
          Process.Request (Tasks.CreateTask Sample.at_100 Sample.payload_t1)]
         (Process.at_rest []))
  = [Py.Ok (Py.JObj {[ "id" := Py.JStr "task_1700000000100"; "status" := Py.JStr "created" ]});
     Py.Uncaught Py.IntegrityError;
     Py.Uncaught Py.OperationalError;
     Py.Uncaught Py.IntegrityError].
Proof. vm_compute. reflexivity. Qed.



(** A description that is a number is listed as text, and a NaN as
    null. *)
Example description_kept_as_text :
  map Tasks.description
    (snd (Tasks.create_agent_task Sample.at_600 Fixtures.payload_inf_description []))
  = [Tasks.SqlText "Inf"] /\
  map Tasks.description
    (snd (Tasks.create_agent_task Sample.at_600
            {[ "name" := Py.JStr "t2"; "description" := Py.JInt 7; "task" := Py.JStr "other" ]}
            []))
  = [Tasks.SqlText "7"] /\
  map Tasks.description
    (snd (Tasks.create_agent_task Sample.at_600
            {[ "name" := Py.JStr "t2"; "description" := Py.JFloat S754_nan;
               "task" := Py.JStr "other" ]}
            []))
  = [Tasks.SqlNull].
Proof. repeat split; vm_compute; reflexivity. Qed.

(** X20. A POST whose INSERT fails on a constraint keeps out every
    later POST: as long as its connection is not reclaimed, the requests
    that follow store nothing and none of them creates a task, and a
    POST that would be accepted on some table is answered
    [OperationalError]. *)
Theorem failed_insert_locks_out
    (now : Tasks.clock) (payload : gmap string Py.value) (st st' : Process.state)
    (rqs : list Tasks.request) :
  Process.create_agent_task now payload st = (Py.Uncaught Py.IntegrityError, st') ->
  Process.rows (snd (Process.serve (map Process.Request rqs) st')) = Process.rows st /\
  Forall (fun r => Tasks.created_id r = None)
         (fst (Process.serve (map Process.Request rqs) st')) /\
  (forall now' payload' body db db',
     Tasks.create_agent_task now' payload' db = (Py.Ok body, db') ->
     fst (Process.create_agent_task now' payload'
            (snd (Process.serve (map Process.Request rqs) st')))
     = Py.Uncaught Py.OperationalError).
Proof.
  intros Hc.
  assert (Hst : Process.rows st' = Process.rows st /\ Process.locked st' = true).
  { unfold Process.create_agent_task in Hc. cbv zeta in Hc.
    destruct (negb _ || negb _); [discriminate|].
    destruct (Process.bind_params _ _ _) as [e|u] eqn:Hb.
    - destruct (bind_params_raises now "" _ _ _ [] _ Hb) as [_ [He|He]];
        injection Hc as He' _; congruence.
    - destruct (Process.locked st) eqn:Hl; [discriminate|].
      destruct (Tasks.insert_task _ _ _ _ _ _); [|discriminate].
      injection Hc as _ <-. split; reflexivity. }
  destruct Hst as [Hrows Hl].
  destruct (process_serve_locked rqs st' Hl) as [Hs Hf]. rewrite Hs.
  split; [exact Hrows|]. split; [exact Hf|].
  intros now' payload' body db db' Hok.
  rewrite (process_create_locked_valid now' payload' st' body db db' Hl Hok). reflexivity.
Qed.

Lemma failed_insert_locks_out_witness :
  Process.rows
    (snd (Process.serve
            (map Process.Request
               [Tasks.CreateTask Sample.at_500 Sample.payload_t1; Tasks.GetTasks])
            {| Process.rows := [Sample.older_row]; Process.locked := true |}))
  = Process.rows (Process.at_rest [Sample.older_row]) /\
  Forall (fun r => Tasks.created_id r = None)
         (fst (Process.serve
                 (map Process.Request
                    [Tasks.CreateTask Sample.at_500 Sample.payload_t1; Tasks.GetTasks])
                 {| Process.rows := [Sample.older_row]; Process.locked := true |})) /\
  (forall now' payload' body db db',
     Tasks.create_agent_task now' payload' db = (Py.Ok body, db') ->
     fst (Process.create_agent_task now' payload'
            (snd (Process.serve
                    (map Process.Request
                       [Tasks.CreateTask Sample.at_500 Sample.payload_t1; Tasks.GetTasks])
                    {| Process.rows := [Sample.older_row]; Process.locked := true |})))
     = Py.Uncaught Py.OperationalError).
Proof.
  apply (failed_insert_locks_out Sample.at_100 Fixtures.payload_nan_name
           (Process.at_rest [Sample.older_row])
           {| Process.rows := [Sample.older_row]; Process.locked := true |}
           [Tasks.CreateTask Sample.at_500 Sample.payload_t1; Tasks.GetTasks]).
  vm_compute. reflexivity.
Defined.

(** X21. When the connection of every request is reclaimed before the
    next request comes, the process answers as the handlers do on the
    table alone, and leaves the same rows. *)
Theorem reclaiming_run_is_serve (rqs : list Tasks.request) (db : Tasks.table) :
  Process.serve (Process.reclaiming rqs) (Process.at_rest db)
  = (fst (Tasks.serve rqs db), Process.at_rest (snd (Tasks.serve rqs db))).
Proof.
  revert db. induction rqs as [|rq rest IH]; intros db; [reflexivity|].
  cbn [Process.reclaiming flat_map app Process.serve Tasks.serve].
  assert (Hrq : exists l,
             Process.handle rq (Process.at_rest db)
             = (fst (Tasks.handle rq db),
                {| Process.rows := snd (Tasks.handle rq db); Process.locked := l |})).
  { destruct rq as [|now payload]; cbn [Process.handle Tasks.handle fst snd].
    - exists false. reflexivity.
    - destruct (process_create_unlocked now payload (Process.at_rest db) eq_refl) as [Hf Hs].
      cbn [Process.at_rest Process.rows] in Hf, Hs.
      destruct (Process.create_agent_task now payload (Process.at_rest db)) as [r [rows l]].
      cbn [fst snd Process.rows] in Hf, Hs. subst r rows. exists l. reflexivity. }
  destruct Hrq as [l ->]. cbn [Process.rows].
  change {| Process.rows := snd (Tasks.handle rq db); Process.locked := false |}
    with (Process.at_rest (snd (Tasks.handle rq db))).
  fold (Process.reclaiming rest). rewrite IH.
  destruct (Tasks.handle rq db) as [r db1]. cbn [fst snd].
  destruct (Tasks.serve rest db1) as [rs db2]. reflexivity.
Qed.

(** X22. The process only ever appends to the table: after any run of
    requests and reclaimed connections, the rows are the ones before
    followed by one row for each response that reported a created id, in
    the order of the responses and under those ids. *)
Theorem process_appends_created (evs : list Process.event) (st : Process.state) :
  exists added,
    Process.rows (snd (Process.serve evs st)) = (Process.rows st ++ added)%list /\
    map Tasks.id added = omap Tasks.created_id (fst (Process.serve evs st)).
Proof.
  revert st. induction evs as [|[rq|] rest IH]; intros st.
  - exists []. split; [symmetry; apply app_nil_r | reflexivity].
  - cbn [Process.serve].
    assert (Hrq : exists r st1 one,
               Process.handle rq st = (r, st1) /\
               Process.rows st1 = (Process.rows st ++ one)%list /\
               map Tasks.id one
               = match Tasks.created_id r with Some i => [i] | None => [] end).
    { destruct rq as [|now payload]; cbn [Process.handle].
      - exists (Process.get_agent_tasks st), st, []. rewrite app_nil_r.
        unfold Process.get_agent_tasks. rewrite created_id_get. auto.
      - destruct (process_create_cases now payload st)
          as [(row & Hc & Hid & _) | (r & st' & Hc & Hrows & _ & Hr)].
        + eexists _, _, [row]. split; [exact Hc|]. split; [reflexivity|].
          rewrite created_id_body, <- Hid. reflexivity.
        + exists r, st', []. rewrite app_nil_r. split; [exact Hc|]. split; [exact Hrows|].
          rewrite (created_id_not_ok _ Hr). reflexivity. }
    destruct Hrq as (r & st1 & one & -> & Hrows & Hone).
    destruct (IH st1) as (added & Hs & Hids).
    destruct (Process.serve rest st1) as [rs st2]. cbn [fst snd] in *.
    exists (one ++ added)%list. split; [rewrite Hs, Hrows, app_assoc; reflexivity|].
    rewrite map_app, Hone, Hids. cbn [omap list_omap].
    destruct (Tasks.created_id r); reflexivity.
  - cbn [Process.serve]. apply (IH {| Process.rows := Process.rows st; Process.locked := false |}).
Qed.

(** X13. The GET lists every stored task exactly once, none before a
    task with a later [created_at], and tasks with the same [created_at]
    in the order they were inserted. *)
Theorem get_agent_tasks_listing (db : Tasks.table) :
  exists listing,
    Tasks.get_agent_tasks db
    = Py.Ok (Py.JObj {[ "tasks" := Py.JArr (map Tasks.task_json listing) ]}) /\
    Permutation db listing /\
    StronglySorted Tasks.newer_or_equal listing /\
    forall stamp,
      Sql.with_key Tasks.created_at stamp listing = Sql.with_key Tasks.created_at stamp db.
Proof.
  exists (Tasks.order_by_created_at_desc db).
  split; [reflexivity|].
  destruct (order_by_is_ordered_listing db) as [Hperm Hsorted].
  split; [exact Hperm|]. split; [exact Hsorted|].
  intros stamp. rewrite tasks_order_by_is_sql. apply order_by_desc_with_key.
Qed.

(** X14. The id is a faithful name of the millisecond: two clock readings
    give the same id only when they are the same number. *)
Theorem task_id_eq_iff (a b : Z) : Tasks.task_id a = Tasks.task_id b <-> a = b.
Proof.
  split; [apply task_id_inj | intros ->; reflexivity].
Qed.

(** ** Chat sessions *)

(** X15. [GET /api/chat_sessions] lists every stored session exactly
    once, none before a session with a later [updated_at], and sessions
    with the same [updated_at] in the order of the table. *)
Theorem list_sessions_listing (db : Sessions.table) :
  exists listing,
    Sessions.list_sessions db
    = Py.Ok (Py.JObj {[ "sessions" := Py.JArr (map Sessions.session_json listing) ]}) /\
    Permutation db listing /\
    StronglySorted (Sql.key_ge Sessions.updated_at) listing /\
    forall stamp,
      Sql.with_key Sessions.updated_at stamp listing
      = Sql.with_key Sessions.updated_at stamp db.
Proof.
  exists (Sql.order_by_desc Sessions.updated_at db).
  split; [reflexivity|]. split; [apply order_by_desc_perm|].
  split; [apply order_by_desc_sorted|].
  intros stamp. apply order_by_desc_with_key.
Qed.

Example list_sessions_two :
  Sessions.list_sessions [Fixtures.session_a; Fixtures.session_b]
  = Py.Ok (Py.JObj {[ "sessions" :=
                        Py.JArr [Sessions.session_json Fixtures.session_b;
                                 Sessions.session_json Fixtures.session_a] ]}).
Proof. reflexivity. Qed.

(** ** Database initialisation *)

(** X16. [init_db] creates the tables that are missing, empty, and keeps
    every table that is there with its rows; running it again changes
    nothing; and after it no handler finds a table missing: each works on
    the table as it was, or on the empty one. *)
Theorem init_db_creates_and_keeps
    (d : Schema.database) (now : Tasks.clock) (payload : gmap string Py.value) :
  Schema.init_db (Schema.init_db d) = Schema.init_db d /\
  Schema.chat_sessions (Schema.init_db d) = Some (default [] (Schema.chat_sessions d)) /\
  Schema.chat_messages (Schema.init_db d) = Some (default [] (Schema.chat_messages d)) /\
  Schema.agent_tasks (Schema.init_db d) = Some (default [] (Schema.agent_tasks d)) /\
  Schema.list_sessions (Schema.init_db d)
  = Schema.Answer (Sessions.list_sessions (default [] (Schema.chat_sessions d))) /\
  Schema.get_agent_tasks (Schema.init_db d)
  = Schema.Answer (Tasks.get_agent_tasks (default [] (Schema.agent_tasks d))) /\
  fst (Schema.create_agent_task now payload (Schema.init_db d))
  = Schema.Answer
      (fst (Tasks.create_agent_task now payload (default [] (Schema.agent_tasks d)))).
Proof.
  destruct d as [[s|] [m|] [t|]]; cbn;
    repeat split; try reflexivity;
    destruct (Tasks.create_agent_task now payload _); reflexivity.
Qed.

(** Without [init_db], on a file that lacks the table, a well-formed POST
    finds no table; a payload that fails the check is still answered 400. *)
Example create_without_table :
  Schema.create_agent_task Sample.at_600 Sample.payload_t1
    {| Schema.chat_sessions := None; Schema.chat_messages := None; Schema.agent_tasks := None |}
  = (Schema.NoSuchTable,
     {| Schema.chat_sessions := None; Schema.chat_messages := None;
        Schema.agent_tasks := None |}).
Proof. reflexivity. Qed.

(** ** Background metrics logger: what ends it *)

(** X17. An exception that is not an [Exception] ends the task at the
    call that raised it: the iterations before it ran in full, that call
    is neither reported nor followed by a sleep, and nothing of the rest
    of the script is consumed. *)
Theorem exit_ends_logger
    (interval : Z) (before rest : list Metrics.outcome) (message : string) (fuel : nat) :
  forallb Metrics.caughtb before = true ->
  4 * length before + 1 < fuel ->
  Metrics.run fuel (Metrics.periodic_metrics_logger interval)
    (before ++ Metrics.Raised (Metrics.AnExit message) :: rest)
  = ((flat_map (Metrics.iteration_events interval) before ++ [Metrics.Called])%list,
     Metrics.Ended (Metrics.AnExit message)).
Proof.
  revert fuel. induction before as [|o before IH]; intros fuel Hc Hf.
  - destruct fuel as [|[|fuel]]; cbn in Hf; try lia. reflexivity.
  - cbn in Hc. apply andb_true_iff in Hc as [Ho Hc]. cbn [length] in Hf.
    destruct fuel as [|[|[|[|fuel]]]]; try lia.
    assert (IH1 := IH (S fuel) Hc ltac:(lia)).
    specialize (IH fuel Hc ltac:(lia)).
    destruct o as [|[e|e]]; [| |discriminate Ho].
    + cbn [flat_map Metrics.iteration_events app].
      change (Metrics.run (S (S (S (S fuel)))) (Metrics.periodic_metrics_logger interval)
                (Metrics.Returned :: (before ++ Metrics.Raised (Metrics.AnExit message) :: rest)))
        with (let '(tr, st) :=
                (let '(tr, st) :=
                   Metrics.run (S fuel) (Metrics.periodic_metrics_logger interval)
                     (before ++ Metrics.Raised (Metrics.AnExit message) :: rest)
                 in (Metrics.Slept interval :: tr, st))
              in (Metrics.Called :: tr, st)).
      rewrite IH1. reflexivity.
    + cbn [flat_map Metrics.iteration_events app].
      change (Metrics.run (S (S (S (S fuel)))) (Metrics.periodic_metrics_logger interval)
                (Metrics.Raised (Metrics.AnException e)
                 :: (before ++ Metrics.Raised (Metrics.AnExit message) :: rest)))
        with (let '(tr, st) :=
                (let '(tr, st) :=
                   (let '(tr, st) :=
                      Metrics.run fuel (Metrics.periodic_metrics_logger interval)
                        (before ++ Metrics.Raised (Metrics.AnExit message) :: rest)
                    in (Metrics.Slept interval :: tr, st))
                 in (Metrics.Printed ("[Periodic Logger] Error: " ++ e) :: tr, st))
              in (Metrics.Called :: tr, st)).
      rewrite IH. reflexivity.
Qed.

Lemma exit_ends_logger_witness :
  Metrics.run 10 (Metrics.periodic_metrics_logger 60)
    ([Metrics.Returned; Metrics.Raised (Metrics.AnException "disk full")]
     ++ Metrics.Raised (Metrics.AnExit "cancelled") :: [Metrics.Returned])
  = ((flat_map (Metrics.iteration_events 60)
        [Metrics.Returned; Metrics.Raised (Metrics.AnException "disk full")]
      ++ [Metrics.Called])%list,
     Metrics.Ended (Metrics.AnExit "cancelled")).
Proof.
  apply (exit_ends_logger 60 [Metrics.Returned; Metrics.Raised (Metrics.AnException "disk full")]
           [Metrics.Returned] "cancelled" 10).
  - reflexivity.
  - cbn. lia.
Defined.

(** ** Progress steps: the whole of the parser *)

Section ProgressMore.
Import Py Progress.

Lemma split_with_dot : forall s,
  has_dot s = true -> exists a b, split_dot_once s = [a; b].
Proof.
  induction s as [|c r IH]; cbn; intros H; [discriminate|].
  destruct (Ascii.eqb c "."); [eauto|]. cbn in H.
  destruct (IH H) as (a & b & ->). eauto.
Qed.

Lemma split_no_dot : forall s, has_dot s = false -> split_dot_once s = [s].
Proof.
  induction s as [|c r IH]; cbn; intros H; [reflexivity|].
  apply orb_false_iff in H as [-> Hr]. rewrite (IH Hr). reflexivity.
Qed.

(** One round of the loop, case by case. *)
Lemma parse_line_cases steps line :
  parse_line steps line =
    if begins_with_numeral line then
      if has_dot (strip line) then ret (steps ++ [ProgressLines.step_of line])%list
      else raise IndexError
    else ret steps.
Proof.
  unfold parse_line, begins_with_numeral, ProgressLines.step_of.
  destruct (strip line) as [|c r] eqn:Hl; [reflexivity|].
  destruct (isdigit c); [|reflexivity].
  destruct (has_dot (String c r)) eqn:Hd.
  - destruct (split_with_dot _ Hd) as (a & b & ->). reflexivity.
  - rewrite (split_no_dot _ Hd). reflexivity.
Qed.

Lemma parse_lines_cases : forall lines steps,
  parse_lines steps lines =
    if existsb ProgressLines.breaks_parser lines then raise IndexError
    else ret (steps ++ map ProgressLines.step_of (List.filter begins_with_numeral lines))%list.
Proof.
  induction lines as [|line rest IH]; intros steps.
  - cbn. rewrite app_nil_r. reflexivity.
  - cbn [parse_lines existsb List.filter]. rewrite parse_line_cases.
    unfold ProgressLines.breaks_parser at 1.
    destruct (begins_with_numeral line); cbn [andb orb].
    + destruct (has_dot (strip line)); cbn [negb orb bind raise ret]; [|reflexivity].
      rewrite IH. destruct (existsb _ rest); [reflexivity|].
      cbn [map]. rewrite <- app_assoc. reflexivity.
    + cbn [bind ret]. apply IH.
Qed.

Lemma lstrip_head s :
  lstrip s = "" \/ exists c r, lstrip s = String c r /\ isspace c = false.
Proof.
  induction s as [|c r IH]; cbn; [auto|].
  destruct (isspace c) eqn:Hc; [exact IH | right; eauto].
Qed.

Lemma rstrip_idempotent : forall s, rstrip (rstrip s) = rstrip s.
Proof.
  induction s as [|c r IH]; [reflexivity|].
  cbn [rstrip]. destruct (rstrip r) as [|d r'] eqn:Hr.
  - destruct (isspace c) eqn:Hc; [reflexivity|]. cbn. rewrite Hc. reflexivity.
  - change (match rstrip (String d r') with
            | "" => if isspace c then "" else String c ""
            | r0 => String c r0
            end = String c (String d r')).
    rewrite IH. reflexivity.
Qed.

Lemma rstrip_keeps_head c r :
  isspace c = false -> exists r', rstrip (String c r) = String c r'.
Proof.
  intros Hc. cbn. destruct (rstrip r); [rewrite Hc|]; eauto.
Qed.

Lemma strip_idempotent s : strip (strip s) = strip s.
Proof.
  unfold strip.
  destruct (lstrip_head s) as [-> | (c & r & -> & Hc)]; [reflexivity|].
  destruct (rstrip_keeps_head c r Hc) as [r' Hr]. rewrite Hr.
  cbn [lstrip]. rewrite Hc. rewrite <- Hr. apply rstrip_idempotent.
Qed.

Lemma step_of_stripped line : strip (ProgressLines.step_of line) = ProgressLines.step_of line.
Proof.
  unfold ProgressLines.step_of.
  destruct (split_dot_once (strip line)) as [|a [|b l]]; try reflexivity.
  apply strip_idempotent.
Qed.

Lemma filter_length_le {A} (f : A -> bool) (l : list A) :
  length (List.filter f l) <= length l.
Proof.
  induction l as [|x xs IH]; cbn; [lia|]. destruct (f x); cbn; lia.
Qed.

End ProgressMore.

(** X18. The whole of [generate_progress_steps], whatever the prompt and
    [max_steps]: it raises [IndexError] exactly when some line of the
    reply begins with a numeral and has no ["."]; otherwise it returns,
    for the lines that begin with a numeral and in their order, what
    follows the first ["."] of the line, stripped.  Every other line is
    dropped. *)
Theorem generate_progress_steps_spec
    (generate_content : string -> string) (prompt : string) (max_steps : Z) :
  Progress.generate_progress_steps generate_content prompt max_steps =
    if existsb ProgressLines.breaks_parser
         (Progress.splitlines (generate_content (Progress.system_prompt prompt max_steps)))
    then inl Py.IndexError
    else inr (map ProgressLines.step_of
                (Progress.numbered_lines
                   (generate_content (Progress.system_prompt prompt max_steps)))).
Proof.
  unfold Progress.generate_progress_steps, Progress.parse_steps, Progress.numbered_lines.
  rewrite parse_lines_cases. reflexivity.
Qed.

(** X19. Whatever list comes back has no more entries than the reply has
    lines, and no entry begins or ends with white space: each is its own
    [strip()]. *)
Theorem progress_steps_are_stripped
    (generate_content : string -> string) (prompt : string) (max_steps : Z)
    (steps : list string) :
  Progress.generate_progress_steps generate_content prompt max_steps = inr steps ->
  length steps
  <= length (Progress.splitlines (generate_content (Progress.system_prompt prompt max_steps))) /\
  Forall (fun step => Progress.strip step = step) steps.
Proof.
  unfold Progress.generate_progress_steps, Progress.parse_steps.
  rewrite parse_lines_cases. destruct (existsb _ _); [discriminate|].
  intros [= <-]. cbn [app]. split.
  - rewrite length_map. apply filter_length_le.
  - apply Forall_map. apply List.Forall_forall. intros line _. apply step_of_stripped.
Qed.

Lemma progress_steps_are_stripped_witness :
  length ["Open the browser"; "Search for the item"; "Read the price"]
  <= length (Progress.splitlines
               (Sample.replies Sample.three_steps (Progress.system_prompt "buy a kettle" 6))) /\
  Forall (fun step => Progress.strip step = step)
         ["Open the browser"; "Search for the item"; "Read the price"].
Proof.
  apply (progress_steps_are_stripped (Sample.replies Sample.three_steps) "buy a kettle" 6).
  reflexivity.
Defined.

(** A marker with nothing after it gives an empty step. *)
Example empty_step :
  Progress.parse_steps ("1." ++ Sample.lf ++ "2. " ++ Sample.lf) = inr [""; ""].
Proof. reflexivity. Qed.
